(** * news_scraper.py: a shallow embedding and its checked properties

    The program fetches syndicated headlines for a fixed table of sources,
    each with an ordered list of candidate feed URLs ([try_feed_urls]),
    removes duplicates ([dedupe]), optionally keeps the most recent ones
    (the [global_top] branch of [main]) and hands the rows to [save].

    Python values are modelled as follows.
    - [str] is [string]: a sequence of characters with code points below
      256; [str.strip], [str.lower] and slicing are written out on it.
    - A row ([dict] with the five keys written by [try_feed_urls]) is the
      record [Row]; a feedparser entry is the record [Entry], each optional
      attribute being an [option].
    - [datetime] values are [datetime] records (wall-clock microseconds and
      an optional UTC offset); comparing a naive with an aware value raises,
      as in Python.
    - [print], [requests.get] and the two file writes are events of a trace;
      the network, the clock and the file system form a world [W] that is
      threaded through the calls; a raised exception is a result of its
      own. *)

From stdpp Require Import base tactics option list gmap strings pretty sorting.
From Stdlib Require Import ZArith Ascii Lia.

(** ** Python strings *)

Module PyStr.

(** [str.isspace] on one character, for code points below 256: TAB, LF,
    VT, FF, CR, the separators FS GS RS US, SPACE, NEL and NBSP. *)
Definition isspace (c : ascii) : bool :=
  let n := N_of_ascii c in
  (((9 <=? n) && (n <=? 13)) || ((28 <=? n) && (n <=? 32))
   || (n =? 133) || (n =? 160))%N.

(** Truth value of a string: the empty string is false. *)
Definition truthy (s : string) : bool :=
  match s with
  | EmptyString => false
  | String _ _ => true
  end.

(** [a or b] on strings. *)
Definition or_else (a b : string) : string :=
  if truthy a then a else b.

Fixpoint lstrip (s : string) : string :=
  match s with
  | EmptyString => EmptyString
  | String c s' => if isspace c then lstrip s' else s
  end.

Fixpoint rstrip (s : string) : string :=
  match s with
  | EmptyString => EmptyString
  | String c s' =>
      match rstrip s' with
      | EmptyString => if isspace c then EmptyString else String c EmptyString
      | t => String c t
      end
  end.

(** [s.strip()] *)
Definition strip (s : string) : string := lstrip (rstrip s).

(** [s[:n]] for a non-negative constant [n]. *)
Definition take (n : nat) (s : string) : string := String.substring 0 n s.

Fixpoint map_chars (f : ascii -> ascii) (s : string) : string :=
  match s with
  | EmptyString => EmptyString
  | String c s' => String (f c) (map_chars f s')
  end.

Definition newline : ascii := "010"%char.

(** [s.replace("\n", " ")] *)
Definition newlines_to_spaces (s : string) : string :=
  map_chars (fun c => if Ascii.eqb c newline then " "%char else c) s.

(** [str.lower] on one character: A-Z, and the upper-case letters of the
    range 192-222 (all but the multiplication sign 215). *)
Definition lower_char (c : ascii) : ascii :=
  let n := N_of_ascii c in
  if (((65 <=? n) && (n <=? 90))
      || ((192 <=? n) && (n <=? 222) && negb (n =? 215)))%N
  then ascii_of_N (n + 32) else c.

Definition lower (s : string) : string := map_chars lower_char s.

(** A string that [strip] leaves alone. *)
Definition trimmed (s : string) : Prop := strip s = s.

End PyStr.

(** ** Dates *)

(** A [datetime.datetime] value: the wall-clock instant in microseconds
    counted from 0001-01-01T00:00:00, and the UTC offset in microseconds
    when the value is timezone-aware ([None] for a naive value). *)
Record datetime : Type := mk_datetime {
  dt_wall : Z;
  dt_utcoffset : option Z
}.

#[global] Instance datetime_eq_dec : EqDecision datetime.
Proof. solve_decision. Defined.

Module PyDate.

Open Scope Z_scope.

Definition is_leap (y : Z) : bool :=
  (y mod 4 =? 0) && (negb (y mod 100 =? 0) || (y mod 400 =? 0)).

Definition days_in_month (y m : Z) : Z :=
  if m =? 2 then (if is_leap y then 29 else 28)
  else if (m =? 4) || (m =? 6) || (m =? 9) || (m =? 11) then 30
  else 31.

(** Days in the years before [y]. *)
Definition days_before_year (y : Z) : Z :=
  let p := y - 1 in p * 365 + p / 4 - p / 100 + p / 400.

(** Days in year [y] before the first day of month [m]. *)
Definition days_before_month (y m : Z) : Z :=
  fold_right Z.add 0
    (map (days_in_month y) (List.filter (fun k => k <? m) [1;2;3;4;5;6;7;8;9;10;11])).

(** Proleptic Gregorian ordinal, 0001-01-01 being day 1. *)
Definition ymd2ord (y m d : Z) : Z :=
  days_before_year y + days_before_month y m + d.

Definition check_date_fields (y m d : Z) : bool :=
  (1 <=? y) && (y <=? 9999) && (1 <=? m) && (m <=? 12)
  && (1 <=? d) && (d <=? days_in_month y m).

Definition check_time_fields (hh mm ss : Z) : bool :=
  (0 <=? hh) && (hh <=? 23) && (0 <=? mm) && (mm <=? 59)
  && (0 <=? ss) && (ss <=? 59).

Definition of_fields (y m d hh mm ss : Z) : option datetime :=
  if check_date_fields y m d && check_time_fields hh mm ss
  then Some (mk_datetime
               (((((ymd2ord y m d - 1) * 24 + hh) * 60 + mm) * 60 + ss) * 1000000)
               None)
  else None.

(** The constructor [datetime] applied to at most six integers; [None]
    stands for the [TypeError] of a call with fewer than three arguments
    and for the [ValueError] of a field out of range. *)
Definition construct (args : list Z) : option datetime :=
  match args with
  | [y; m; d] => of_fields y m d 0 0 0
  | [y; m; d; hh] => of_fields y m d hh 0 0
  | [y; m; d; hh; mm] => of_fields y m d hh mm 0
  | [y; m; d; hh; mm; ss] => of_fields y m d hh mm ss
  | _ => None
  end.

(** The instant two values of one kind are ordered by. *)
Definition instant (a : datetime) : Z :=
  match dt_utcoffset a with
  | None => dt_wall a
  | Some off => dt_wall a - off
  end.

(** [a < b] on datetimes; [None] is the [TypeError] raised when one is
    naive and the other aware. *)
Definition lt (a b : datetime) : option bool :=
  match dt_utcoffset a, dt_utcoffset b with
  | None, None => Some (dt_wall a <? dt_wall b)
  | Some oa, Some ob => Some (dt_wall a - oa <? dt_wall b - ob)
  | _, _ => None
  end.

(** [a < b] on the values of the [published_dt] key; ordering [None]
    against anything is a [TypeError] too. *)
Definition key_lt (a b : option datetime) : option bool :=
  match a, b with
  | Some x, Some y => lt x y
  | _, _ => None
  end.

End PyDate.

(** ** Rows and feed entries *)

(** The dict appended to [rows] by [try_feed_urls]. *)
Record Row : Type := mk_row {
  source : string;
  title : string;
  link : string;
  published : string;
  published_dt : option datetime
}.

#[global] Instance Row_eq_dec : EqDecision Row.
Proof. solve_decision. Defined.

(** One element of [parsed.entries]. A field is [None] when [getattr]
    falls back to its default: the attribute is missing (or, for
    [published_parsed], is [None]). [published_parsed] is a
    [time.struct_time], that is, a tuple of integers. *)
Record Entry : Type := mk_entry {
  e_title : option string;
  e_link : option string;
  e_published : option string;
  e_updated : option string;
  e_published_parsed : option (list Z)
}.

(** The result of [feedparser.parse]. *)
Record Parsed : Type := mk_parsed {
  bozo : bool;
  bozo_exception : string;
  entries : list Entry
}.

(** What [requests.get] returns: [r.status_code], [r.text] and the
    [Content-Type] header when the response has one. *)
Record Response : Type := mk_response {
  status_code : Z;
  text : string;
  content_type : option string
}.

(** A raised [Exception], with its [str]. *)
Inductive exn : Type := Exception (msg : string).

(** One row of the [DataFrame] built by [save]. *)
Record DfRow : Type := mk_dfrow {
  df_source : string;
  df_title : string;
  df_link : string;
  df_published : string;
  df_published_dt_iso : string;
  df_scraped_at : string
}.

(** The [DataFrame] that [save] writes: its column names and its rows. *)
Record Table : Type := mk_table {
  columns : list string;
  body : list DfRow
}.

(** ** Effects *)

Inductive event : Type :=
| EvPrint (line : string)
| EvGet (url : string) (headers : list (string * string)) (timeout : Z)
| EvWrite (path : string) (df : Table).

(** The libraries that are functions of their argument. *)
Class Libs : Type := {
  (** [feedparser.parse] on a text body *)
  feedparser_parse : string -> Parsed;
  (** [dateutil_parser.parse]; [None] when it raises *)
  dateutil_parse : string -> option datetime;
  (** one cell of the column [published_dt_iso], as pandas computes it by
      [apply] from the column [published_dt] (first argument) *)
  published_dt_iso_cell : list (option datetime) -> option datetime -> string
}.

(** The outside world: network, clock and file system. *)
Class World (W : Type) : Type := {
  requests_get :
    string -> list (string * string) -> Z -> W -> (exn + Response) * W;
  (** [datetime.now().isoformat()] *)
  now_isoformat : W -> string * W;
  (** [DataFrame.to_csv] and [DataFrame.to_excel] *)
  to_csv : string -> Table -> W -> (exn + unit) * W;
  to_excel : string -> Table -> W -> (exn + unit) * W
}.

(** A computation: from a world to the events emitted, the world left and
    either the exception raised or the value returned. *)
Definition M (W A : Type) : Type := W -> list event * W * (exn + A).

Definition ret {W A} (a : A) : M W A := fun w => ([], w, inr a).

Definition bind {W A B} (m : M W A) (k : A -> M W B) : M W B :=
  fun w =>
    match m w with
    | (t1, w1, inl e) => (t1, w1, inl e)
    | (t1, w1, inr a) =>
        match k a w1 with
        | (t2, w2, r) => (t1 ++ t2, w2, r)
        end
    end.

Definition raise {W A} (e : exn) : M W A := fun w => ([], w, inl e).

(** [try: m  except Exception as e: h e] *)
Definition try_except {W A} (m : M W A) (h : exn -> M W A) : M W A :=
  fun w =>
    match m w with
    | (t1, w1, inl e) =>
        match h e w1 with
        | (t2, w2, r) => (t1 ++ t2, w2, r)
        end
    | r => r
    end.

Definition print {W} (line : string) : M W unit :=
  fun w => ([EvPrint line], w, inr tt).

Notation "'let*' x := m 'in' k" := (bind m (fun x => k))
  (at level 10, x name, m at level 100, k at level 200).

Definition trace_of {W A} (r : list event * W * (exn + A)) : list event := r.1.1.
Definition world_of {W A} (r : list event * W * (exn + A)) : W := r.1.2.
Definition value_of {W A} (r : list event * W * (exn + A)) : exn + A := r.2.

(** ** Configuration *)

Definition FEEDS : list (string * list string) :=
  [ ("TechCrunch", ["https://techcrunch.com/feed/"]);
    ("Economic Times - Top Stories",
     [ "https://b2b.economictimes.indiatimes.com/rss/topstories";
       "https://economictimes.indiatimes.com/feeds/newsdefault.cms";
       "https://economictimes.indiatimes.com/rssfeedsdefault.cms";
       "https://economictimes.indiatimes.com/defaultinterstitial.cms" ]) ].

Definition HEADLINES_PER_SOURCE : nat := 4.
Definition CSV_OUT : string := "news_headlines.csv".
Definition XLSX_OUT : string := "news_headlines.xlsx".
Definition MAX_PER_SOURCE_FOR_GLOBAL : nat := 12.
Definition TOTAL_GLOBAL_TOP : nat := 4.

(** The module-level [MODE], from [sys.argv]. *)
Definition MODE (argv : list string) : string :=
  match argv with
  | _ :: a :: _ =>
      if bool_decide (PyStr.lower a ∈ ["global"; "global_top"])
      then "global_top" else "per_source"
  | _ => "per_source"
  end.

Definition REQUEST_HEADERS : list (string * string) :=
  [ ("User-Agent",
     "Mozilla/5.0 (Windows NT 10.0; Win64; x64) "
     +:+ "AppleWebKit/537.36 (KHTML, like Gecko) Chrome/115.0 Safari/537.36") ].

(** ** Formatting *)

Definition nl : string := String PyStr.newline EmptyString.

(** [str] of a status code, which is [None] after a transport failure. *)
Definition fmt_status (status : option Z) : string :=
  match status with
  | None => "None"
  | Some n => pretty n
  end.

Definition fmt_bool (b : bool) : string := if b then "True" else "False".

(** ** Functions *)

(** [requests.get(url, headers=REQUEST_HEADERS, timeout=timeout)] *)
Definition http_get `{World W} (url : string) (timeout : Z) : M W Response :=
  fun w =>
    match requests_get url REQUEST_HEADERS timeout w with
    | (r, w') => ([EvGet url REQUEST_HEADERS timeout], w', r)
    end.

(** Returns the tuple [(status_code, text, content_type)]. *)
Definition fetch_feed_text `{World W} (url : string) (timeout : Z)
  : M W (option Z * option string * string) :=
  try_except
    (let* r := http_get url timeout in
     ret (Some (status_code r), Some (text r), default "" (content_type r)))
    (fun e => match e with
              | Exception msg => ret (None, None, "error: " +:+ msg)
              end).

Definition parse_with_feedparser_from_text `{Libs} (text : string) : Parsed :=
  feedparser_parse text.

(** Lines 84-106 of [try_feed_urls]: the dict built from one entry [e].
    Both [try] blocks fall back to [None]. *)
Definition normalize_entry `{Libs} (debug_name : string) (e : Entry) : Row :=
  let title := PyStr.strip (default "" (e_title e)) in
  let link := PyStr.strip (default "" (e_link e)) in
  let published :=
    PyStr.or_else (default "" (e_published e)) (default "" (e_updated e)) in
  let published_dt :=
    match e_published_parsed e with
    | Some ((_ :: _) as t) => PyDate.construct (take 6 t)
    | _ => if PyStr.truthy published then dateutil_parse published else None
    end in
  {| source := debug_name; title := title; link := link;
     published := published; published_dt := published_dt |}.

(** The loop [for e in entries: ... rows.append(...)]. *)
Definition append_rows `{Libs} (debug_name : string) (entries : list Entry)
    (rows : list Row) : list Row :=
  fold_left (fun rows e => rows ++ [normalize_entry debug_name e]) entries rows.

(** The loop [for url in url_list] with its [continue] and [break]; [rows]
    is still empty whenever the next URL is tried. *)
Fixpoint try_feed_urls `{Libs} `{World W} (url_list : list string)
    (max_items : nat) (debug_name : string) : M W (list Row) :=
  match url_list with
  | [] => ret []
  | url :: rest =>
      let* _ := print (nl +:+ "Trying URL for " +:+ debug_name +:+ ": " +:+ url) in
      let* r := fetch_feed_text url 15 in
      let '(status, text, ctype) := r in
      let* _ := print (" HTTP status: " +:+ fmt_status status
                       +:+ ", Content-Type: " +:+ PyStr.take 80 ctype) in
      let text := default "" text in
      if negb (PyStr.truthy text) then
        let* _ := print " No response body; moving to next fallback." in
        try_feed_urls rest max_items debug_name
      else
        let parsed := parse_with_feedparser_from_text text in
        let* _ := print (" feedparser.bozo: " +:+ fmt_bool (bozo parsed)
                         +:+ "; entries found: "
                         +:+ pretty (length (entries parsed))) in
        let* _ := (if bozo parsed
                   then print (" bozo_exception: " +:+ bozo_exception parsed)
                   else ret tt) in
        if (length (entries parsed) =? 0)%nat then
          let snippet :=
            PyStr.newlines_to_spaces (PyStr.take 800 (PyStr.strip text)) in
          let* _ := print " Snippet of response (first 800 chars):" in
          let* _ := print snippet in
          try_feed_urls rest max_items debug_name
        else
          let entries := take max_items (entries parsed) in
          ret (append_rows debug_name entries [])
  end.

(** [(r.get("link") or r.get("title") or "").strip()] *)
Definition dedupe_key (r : Row) : string :=
  PyStr.strip (PyStr.or_else (link r) (PyStr.or_else (title r) "")).

(** The loop [for r in rows], with the locals [seen] and [out]. *)
Fixpoint dedupe_loop (rows : list Row) (seen : gset string) (out : list Row)
  : list Row :=
  match rows with
  | [] => out
  | r :: rest =>
      let key := dedupe_key r in
      if negb (PyStr.truthy key) then dedupe_loop rest seen out
      else if decide (key ∈ seen) then dedupe_loop rest seen out
      else dedupe_loop rest ({[key]} ∪ seen) (out ++ [r])
  end.

Definition dedupe (rows : list Row) : list Row := dedupe_loop rows ∅ [].

(** ** [list.sort(key=lambda r: r["published_dt"], reverse=True)]

    The sort is stable, also with [reverse=True], and compares keys with
    [<] only. It is modelled by a stable insertion sort into descending
    order. The comparisons it makes differ from those of the library's
    merge sort, but both raise exactly when two keys of the list cannot be
    compared (the comparisons of any sort connect all elements), and the
    stable sorted arrangement is unique. *)

Fixpoint insert_desc (x : Row) (l : list Row) : option (list Row) :=
  match l with
  | [] => Some [x]
  | y :: l' =>
      match PyDate.key_lt (published_dt x) (published_dt y) with
      | None => None
      | Some true => option_map (cons y) (insert_desc x l')
      | Some false => Some (x :: l)
      end
  end.

Fixpoint sort_desc (l : list Row) : option (list Row) :=
  match l with
  | [] => Some []
  | x :: l' =>
      match sort_desc l' with
      | None => None
      | Some s => insert_desc x s
      end
  end.

Definition sort_by_published_dt_reverse {W} (rows : list Row) : M W (list Row) :=
  match sort_desc rows with
  | Some s => ret s
  | None =>
      raise (Exception "can't compare offset-naive and offset-aware datetimes")
  end.

(** [r.get("published_dt") is not None] *)
Definition has_published_dt (r : Row) : bool :=
  match published_dt r with
  | Some _ => true
  | None => false
  end.

(** ** [save] *)

Definition now `{World W} : M W string :=
  fun w => match now_isoformat w with (s, w') => ([], w', inr s) end.

Definition write_csv `{World W} (path : string) (df : Table) : M W unit :=
  fun w => match to_csv path df w with (r, w') => ([EvWrite path df], w', r) end.

Definition write_excel `{World W} (path : string) (df : Table) : M W unit :=
  fun w => match to_excel path df w with (r, w') => ([EvWrite path df], w', r) end.

(** A frame built from no rows has no columns, so only [scraped_at] is
    added; otherwise the columns are the five keys of a row, with
    [published_dt] replaced by [published_dt_iso], and [scraped_at]. *)
Definition save `{Libs} `{World W} (rows : list Row) : M W Table :=
  let column := map published_dt rows in
  let* scraped_at := now in
  let df :=
    match rows with
    | [] => {| columns := ["scraped_at"]; body := [] |}
    | _ =>
        {| columns := ["source"; "title"; "link"; "published";
                        "published_dt_iso"; "scraped_at"];
           body :=
             map (fun r =>
                    {| df_source := source r; df_title := title r;
                       df_link := link r; df_published := published r;
                       df_published_dt_iso :=
                         published_dt_iso_cell column (published_dt r);
                       df_scraped_at := scraped_at |}) rows |}
    end in
  let* _ := write_csv CSV_OUT df in
  let* _ := write_excel XLSX_OUT df in
  ret df.

(** ** [main] *)

(** The loop [for source_name, urls in FEEDS.items()] of either branch. *)
Fixpoint fetch_sources `{Libs} `{World W} (feeds : list (string * list string))
    (max_items : nat) (all_rows : list Row) : M W (list Row) :=
  match feeds with
  | [] => ret all_rows
  | (source_name, urls) :: feeds' =>
      let* rows := try_feed_urls urls max_items source_name in
      let* _ := print (" -> fetched " +:+ pretty (length rows)
                       +:+ " item(s) for " +:+ source_name) in
      fetch_sources feeds' max_items (all_rows ++ rows)
  end.

(** Lines 139-157 of [main]: the value of [all_rows] after [dedupe]. [mode]
    is the value of the global [MODE]. *)
Definition main_rows `{Libs} `{World W} (mode : string) : M W (list Row) :=
  let* _ := print ("Mode: " +:+ mode) in
  let* all_rows :=
    if String.eqb mode "per_source" then
      fetch_sources FEEDS HEADLINES_PER_SOURCE []
    else
      let* all_rows := fetch_sources FEEDS MAX_PER_SOURCE_FOR_GLOBAL [] in
      let all_rows := List.filter has_published_dt all_rows in
      let* all_rows := sort_by_published_dt_reverse all_rows in
      ret (take TOTAL_GLOBAL_TOP all_rows) in
  ret (dedupe all_rows).

(** The loop over [enumerate(df.head(2).itertuples(index=False), start=1)]. *)
Fixpoint print_top {W} (i : nat) (rows : list DfRow) : M W unit :=
  match rows with
  | [] => ret tt
  | row :: rows' =>
      let pub := PyStr.or_else (df_published row) (df_published_dt_iso row) in
      let* _ := print (nl +:+ "[" +:+ pretty i +:+ "] " +:+ df_title row
                       +:+ nl +:+ "Source : " +:+ df_source row
                       +:+ nl +:+ "Link   : " +:+ df_link row
                       +:+ nl +:+ "Date   : " +:+ pub) in
      print_top (S i) rows'
  end.

Definition main `{Libs} `{World W} (mode : string) : M W unit :=
  let* all_rows := main_rows mode in
  match all_rows with
  | [] => print "No headlines fetched from any source. See debug output above."
  | _ =>
      let* df := save all_rows in
      let* _ := print (nl +:+ "Saved " +:+ pretty (length (body df))
                       +:+ " rows to " +:+ CSV_OUT +:+ " and " +:+ XLSX_OUT) in
      let* _ := print (nl +:+ "=== Top 2 Headlines (formatted summary) ===") in
      print_top 1 (take 2 (body df))
  end.

(** ** Example worlds

    A world scripted by a table from URLs to outcomes of [requests.get];
    its state counts the requests made, the clock reads that count and the
    file system accepts every write. *)

Definition scripted (net : string -> exn + Response) : World nat :=
  {| requests_get := fun url _ _ n => (net url, S n);
     now_isoformat := fun n => ("2024-01-06T00:00:0" +:+ pretty n, n);
     to_csv := fun _ _ n => (inr tt, n);
     to_excel := fun _ _ n => (inr tt, n) |}.

Definition ok_response (status : Z) (body : string) : exn + Response :=
  inr {| status_code := status; text := body;
         content_type := Some "application/rss+xml" |}.

Definition refused : exn + Response := inl (Exception "connection refused").

(** An entry with a title, a link and the date tuple of a day of January
    2024. *)
Definition jan_entry (t l : string) (day : Z) : Entry :=
  {| e_title := Some t; e_link := Some l; e_published := None;
     e_updated := None;
     e_published_parsed := Some [2024; 1; day; 12; 0; 0; 0; day; 0]%Z |}.

(** Five dated entries; the two most recent share their link. *)
Definition five_entries : list Entry :=
  [ jan_entry "A" "https://x/a" 5;
    jan_entry "A (updated)" "https://x/a" 5;
    jan_entry "B" "https://x/b" 4;
    jan_entry "C" "https://x/c" 3;
    jan_entry "D" "https://x/d" 2 ].

(** A parser that knows one feed body; anything else has no entries. *)
Definition toy_libs : Libs :=
  {| feedparser_parse := fun body =>
       if String.eqb body "<rss>five</rss>"
       then {| bozo := false; bozo_exception := ""; entries := five_entries |}
       else {| bozo := true; bozo_exception := "syntax error"; entries := [] |};
     dateutil_parse := fun _ => None;
     published_dt_iso_cell := fun _ d =>
       match d with Some _ => "2024-01" | None => "" end |}.

(** TechCrunch serves the five entries; every Economic Times URL fails, in
    one of the three ways. *)
Definition net_five (status : Z) (url : string) : exn + Response :=
  if String.eqb url "https://techcrunch.com/feed/"
  then ok_response status "<rss>five</rss>"
  else if String.eqb url "https://economictimes.indiatimes.com/feeds/newsdefault.cms"
  then ok_response 200 ""
  else if String.eqb url "https://economictimes.indiatimes.com/rssfeedsdefault.cms"
  then ok_response 200 "<html>not a feed</html>"
  else refused.

(** Nothing answers. *)
Definition net_down (url : string) : exn + Response := refused.

(** An entry dated by its text only. *)
Definition text_entry (t l p : string) : Entry :=
  {| e_title := Some t; e_link := Some l; e_published := Some p;
     e_updated := None; e_published_parsed := None |}.

(** A parser whose feed has one entry with a date tuple and one with a
    textual date, and a date parser that returns aware datetimes. *)
Definition aware_libs : Libs :=
  {| feedparser_parse := fun body =>
       if String.eqb body "<rss>five</rss>"
       then {| bozo := false; bozo_exception := "";
               entries :=
                 [ jan_entry "A" "https://x/a" 5;
                   text_entry "B" "https://x/b"
                     "Thu, 04 Jan 2024 12:00:00 +0530" ] |}
       else {| bozo := true; bozo_exception := "syntax error"; entries := [] |};
     dateutil_parse := fun _ =>
       Some (mk_datetime 63839966400000000 (Some 19800000000%Z));
     published_dt_iso_cell := fun _ d =>
       match d with Some _ => "2024-01" | None => "" end |}.

(** The world in which TechCrunch answers with status 200. *)
Definition world_five : World nat := scripted (net_five 200).

(** The rows of the entries A, B and C. *)
Definition rows_abc : list Row :=
  map (@normalize_entry toy_libs "TechCrunch")
    [ jan_entry "A" "https://x/a" 5; jan_entry "B" "https://x/b" 4;
      jan_entry "C" "https://x/c" 3 ].

(** The batches fetched in [world_five]: the five entries, and nothing
    from the Economic Times. *)
Definition batches_five : list (list Row) :=
  [map (@normalize_entry toy_libs "TechCrunch") five_entries; []].

(** The batches fetched with [aware_libs]: a naive and an aware date. *)
Definition batches_mixed : list (list Row) :=
  [ map (@normalize_entry aware_libs "TechCrunch")
      [ jan_entry "A" "https://x/a" 5;
        text_entry "B" "https://x/b" "Thu, 04 Jan 2024 12:00:00 +0530" ];
    [] ].

(** ** Vocabulary of the statements *)

(** The key as the specification words it: the link if non-empty, else the
    title. *)
Definition raw_key (r : Row) : string :=
  if PyStr.truthy (link r) then link r else title r.

(** The rows [dedupe_loop] appends to [out], and the set [seen] it ends
    with. *)
Fixpoint kept (rows : list Row) (seen : gset string) : list Row :=
  match rows with
  | [] => []
  | r :: rest =>
      let key := dedupe_key r in
      if negb (PyStr.truthy key) then kept rest seen
      else if decide (key ∈ seen) then kept rest seen
      else r :: kept rest ({[key]} ∪ seen)
  end.

Fixpoint seen_after (rows : list Row) (seen : gset string) : gset string :=
  match rows with
  | [] => seen
  | r :: rest =>
      let key := dedupe_key r in
      if negb (PyStr.truthy key) then seen_after rest seen
      else if decide (key ∈ seen) then seen_after rest seen
      else seen_after rest ({[key]} ∪ seen)
  end.

(** A record is the first occurrence of a usable key after [earlier]. *)
Definition first_occurrence (key : Row -> string) (earlier : list Row)
    (r : Row) : bool :=
  bool_decide (key r ≠ "" ∧ key r ∉ map key earlier).

(** [a < b] is false on the [published_dt] keys of two rows: [a] is not
    older than [b]. In a list sorted by this relation the keys never
    increase. *)
Definition not_older (a b : Row) : Prop :=
  PyDate.key_lt (published_dt a) (published_dt b) = Some false.

(** The URLs requested in a trace, in order. *)
Definition urls_requested (t : list event) : list string :=
  omap (fun ev => match ev with EvGet url _ _ => Some url | _ => None end) t.

(** The files written in a trace. *)
Definition files_written (t : list event) : list string :=
  omap (fun ev => match ev with EvWrite path _ => Some path | _ => None end) t.

(** The request [try_feed_urls] makes for a URL. *)
Definition request `{World W} (url : string) (w : W) : (exn + Response) * W :=
  requests_get url REQUEST_HEADERS 15 w.

(** The three ways an attempt on a URL gives nothing: the transport fails,
    the body is empty, or the parser finds no entry in it. *)
Inductive attempt_fails `{Libs} `{World W} (url : string) (w w' : W) : Prop :=
| transport_failure (e : exn) :
    request url w = (inl e, w') → attempt_fails url w w'
| empty_body (r : Response) :
    request url w = (inr r, w') → text r = "" → attempt_fails url w w'
| no_entries (r : Response) :
    request url w = (inr r, w') → text r ≠ "" →
    entries (feedparser_parse (text r)) = [] → attempt_fails url w w'.

(** An attempt that yields the entries [es], at least one. *)
Definition attempt_yields `{Libs} `{World W} (url : string) (w w' : W)
    (es : list Entry) : Prop :=
  ∃ r, request url w = (inr r, w') ∧ text r ≠ ""
       ∧ entries (feedparser_parse (text r)) = es ∧ es ≠ [].

(** Every URL of a list fails, one after the other, from world [w] to
    world [w']. *)
Inductive all_fail `{Libs} `{World W} : list string → W → W → Prop :=
| all_fail_nil (w : W) : all_fail [] w w
| all_fail_cons (url : string) (urls : list string) (w w1 w2 : W) :
    attempt_fails url w w1 → all_fail urls w1 w2 →
    all_fail (url :: urls) w w2.

(** What the tuple returned by [fetch_feed_text] is, by the outcome of the
    request. *)
Definition fetched (o : exn + Response) : option Z * option string * string :=
  match o with
  | inl (Exception msg) => (None, None, "error: " +:+ msg)
  | inr r => (Some (status_code r), Some (text r), default "" (content_type r))
  end.

(** The body of a response, if there is a response. *)
Definition body_of (o : exn + Response) : option string :=
  match o with
  | inl _ => None
  | inr r => Some (text r)
  end.

(** The entries an outcome of [requests.get] yields: those the parser finds
    in a non-empty body. *)
Definition yield `{Libs} (o : exn + Response) : list Entry :=
  match body_of o with
  | Some body =>
      if PyStr.truthy body then entries (feedparser_parse body) else []
  | None => []
  end.

(** The per-source batches: the rows [try_feed_urls] returns for each
    source of [feeds] in turn, from world [w] to world [w']. *)
Inductive batches `{Libs} `{World W} (max_items : nat)
  : list (string * list string) → W → list (list Row) → W → Prop :=
| batches_nil (w : W) : batches max_items [] w [] w
| batches_cons (name : string) (urls : list string)
    (feeds : list (string * list string)) (w w1 w2 : W) (t : list event)
    (rows : list Row) (bs : list (list Row)) :
    try_feed_urls urls max_items name w = (t, w1, inr rows) →
    batches max_items feeds w1 bs w2 →
    batches max_items ((name, urls) :: feeds) w (rows :: bs) w2.

Definition sort_error : exn :=
  Exception "can't compare offset-naive and offset-aware datetimes".

(** The global-top policy: drop undated rows, sort by date, newest first,
    keep [TOTAL_GLOBAL_TOP]. *)
Definition global_top (rows : list Row) : exn + list Row :=
  match sort_desc (List.filter has_published_dt rows) with
  | Some s => inr (take TOTAL_GLOBAL_TOP s)
  | None => inl sort_error
  end.

(** The order of the specification: [dedupe] on all rows, then the
    policy. *)
Definition select_after_dedupe (all_rows : list Row) : exn + list Row :=
  global_top (dedupe all_rows).

(** The order of [main]: the policy on all rows, then [dedupe]. *)
Definition dedupe_after_select (all_rows : list Row) : exn + list Row :=
  match global_top all_rows with
  | inr rows => inr (dedupe rows)
  | inl e => inl e
  end.

(** The cap on the rows of one source and the rows [main] goes on with,
    by mode. *)
Definition cap_of (mode : string) : nat :=
  if String.eqb mode "per_source" then HEADLINES_PER_SOURCE
  else MAX_PER_SOURCE_FOR_GLOBAL.

Definition rows_of (mode : string) (all_rows : list Row) : exn + list Row :=
  if String.eqb mode "per_source" then inr (dedupe all_rows)
  else dedupe_after_select all_rows.

(** The requests made in a trace: URL, headers and timeout. *)
Definition requests_made (t : list event)
  : list (string * list (string * string) * Z) :=
  omap (fun ev => match ev with
                  | EvGet url h z => Some (url, h, z)
                  | _ => None
                  end) t.

(** [text.strip()[:800].replace("\n", " ")], the snippet printed for a body
    without entries. *)
Definition snippet_of (text : string) : string :=
  PyStr.newlines_to_spaces (PyStr.take 800 (PyStr.strip text)).

(** The events of one turn of the loop of [try_feed_urls], by the outcome
    of the request. *)
Definition attempt_trace `{Libs} (name url : string) (o : exn + Response)
  : list event :=
  let '(status, text, ctype) := fetched o in
  let body := default "" text in
  let parsed := feedparser_parse body in
  [ EvPrint (nl +:+ "Trying URL for " +:+ name +:+ ": " +:+ url);
    EvGet url REQUEST_HEADERS 15;
    EvPrint (" HTTP status: " +:+ fmt_status status
             +:+ ", Content-Type: " +:+ PyStr.take 80 ctype) ]
  ++ (if PyStr.truthy body then
        [ EvPrint (" feedparser.bozo: " +:+ fmt_bool (bozo parsed)
                   +:+ "; entries found: " +:+ pretty (length (entries parsed))) ]
        ++ (if bozo parsed
            then [EvPrint (" bozo_exception: " +:+ bozo_exception parsed)]
            else [])
        ++ (match entries parsed with
            | [] => [ EvPrint " Snippet of response (first 800 chars):";
                      EvPrint (snippet_of body) ]
            | _ => []
            end)
      else [EvPrint " No response body; moving to next fallback."]).


(** Neither file write ever raises. *)
Definition writes_succeed `{World W} : Prop :=
  ∀ (path : string) (df : Table) (w : W),
    (to_csv path df w).1 = inr tt ∧ (to_excel path df w).1 = inr tt.

(** The event is a printed line. *)
Definition is_print (ev : event) : Prop :=
  match ev with
  | EvPrint _ => True
  | _ => False
  end.

(** The line [main] prints after [save]. *)
Definition saved_line (n : nat) : string :=
  nl +:+ "Saved " +:+ pretty n +:+ " rows to " +:+ CSV_OUT +:+ " and " +:+ XLSX_OUT.

(** The events [print_top] emits. *)
Fixpoint top_lines (i : nat) (rows : list DfRow) : list event :=
  match rows with
  | [] => []
  | row :: rows' =>
      EvPrint (nl +:+ "[" +:+ pretty i +:+ "] " +:+ df_title row
               +:+ nl +:+ "Source : " +:+ df_source row
               +:+ nl +:+ "Link   : " +:+ df_link row
               +:+ nl +:+ "Date   : "
               +:+ PyStr.or_else (df_published row) (df_published_dt_iso row))
      :: top_lines (S i) rows'
  end.

(** The tables written in a trace, with their paths. *)
Definition writes_made (t : list event) : list (string * Table) :=
  omap (fun ev => match ev with
                  | EvWrite path df => Some (path, df)
                  | _ => None
                  end) t.

(** The heading [main] prints before the summary. *)
Definition top2_header : string :=
  nl +:+ "=== Top 2 Headlines (formatted summary) ===".

(** Two dated rows of which one has a naive and the other an aware date. *)
Definition mixed_dates (rows : list Row) : Prop :=
  ∃ a b x y, a ∈ rows ∧ b ∈ rows
             ∧ published_dt a = Some x ∧ published_dt b = Some y
             ∧ dt_utcoffset x = None ∧ is_Some (dt_utcoffset y).

(** The row is dated at instant [z]. *)
Definition at_instant (z : Z) (r : Row) : bool :=
  match published_dt r with
  | Some x => (PyDate.instant x =? z)%Z
  | None => false
  end.

(** * Properties *)

(** ** Strings *)

Lemma truthy_false_iff (s : string) : PyStr.truthy s = false ↔ s = "".
Proof. destruct s; simpl; split; congruence. Qed.

Lemma lstrip_idem (s : string) : PyStr.lstrip (PyStr.lstrip s) = PyStr.lstrip s.
Proof.
  induction s as [|c s IH]; simpl; [done|].
  destruct (PyStr.isspace c) eqn:E; [done|]. simpl. by rewrite E.
Qed.

Lemma rstrip_idem (s : string) : PyStr.rstrip (PyStr.rstrip s) = PyStr.rstrip s.
Proof.
  induction s as [|c s IH]; simpl; [done|].
  destruct (PyStr.rstrip s) as [|d t] eqn:E.
  - destruct (PyStr.isspace c) eqn:Ec; simpl; [done|]. by rewrite Ec.
  - change (PyStr.rstrip (String c (String d t)))
      with (match PyStr.rstrip (String d t) with
            | EmptyString =>
                if PyStr.isspace c then EmptyString else String c EmptyString
            | u => String c u
            end).
    by rewrite IH.
Qed.

Lemma rstrip_lstrip (s : string) :
  PyStr.rstrip s = s → PyStr.rstrip (PyStr.lstrip s) = PyStr.lstrip s.
Proof.
  induction s as [|c s IH]; simpl; [done|].
  destruct (PyStr.isspace c) eqn:Ec; intros H.
  - apply IH. destruct (PyStr.rstrip s) as [|d t]; [done|]. congruence.
  - simpl. by rewrite Ec.
Qed.

Lemma strip_idem (s : string) : PyStr.strip (PyStr.strip s) = PyStr.strip s.
Proof.
  unfold PyStr.strip.
  rewrite (rstrip_lstrip (PyStr.rstrip s)) by apply rstrip_idem.
  apply lstrip_idem.
Qed.

Lemma strip_trimmed (s : string) : PyStr.trimmed (PyStr.strip s).
Proof. apply strip_idem. Qed.

Lemma strip_empty : PyStr.strip "" = "".
Proof. reflexivity. Qed.

(** ** [dedupe] *)

Lemma dedupe_key_raw (r : Row) : dedupe_key r = PyStr.strip (raw_key r).
Proof.
  unfold dedupe_key, raw_key, PyStr.or_else.
  destruct (PyStr.truthy (link r)); [done|].
  by destruct (title r).
Qed.

Lemma dedupe_loop_kept (rows : list Row) (seen : gset string) (out : list Row) :
  dedupe_loop rows seen out = out ++ kept rows seen.
Proof.
  revert seen out. induction rows as [|r rows IH]; intros seen out; simpl.
  - by rewrite app_nil_r.
  - destruct (negb (PyStr.truthy (dedupe_key r))); [apply IH|].
    destruct (decide (dedupe_key r ∈ seen)); [apply IH|].
    rewrite IH. by rewrite <- app_assoc.
Qed.

Lemma dedupe_kept (rows : list Row) : dedupe rows = kept rows ∅.
Proof. unfold dedupe. by rewrite dedupe_loop_kept. Qed.

Lemma kept_sublist (rows : list Row) (seen : gset string) :
  kept rows seen `sublist_of` rows.
Proof.
  revert seen. induction rows as [|r rows IH]; intros seen; simpl; [done|].
  destruct (negb (PyStr.truthy (dedupe_key r))); [by apply sublist_cons|].
  destruct (decide (dedupe_key r ∈ seen)); [by apply sublist_cons|].
  by apply sublist_skip.
Qed.

Lemma seen_after_spec (rows : list Row) (seen : gset string) (k : string) :
  k ∈ seen_after rows seen ↔ k ∈ seen ∨ (k ≠ "" ∧ k ∈ map dedupe_key rows).
Proof.
  revert seen. induction rows as [|r rows IH]; intros seen; simpl.
  - rewrite elem_of_nil. tauto.
  - rewrite elem_of_cons.
    destruct (PyStr.truthy (dedupe_key r)) eqn:Et; simpl.
    + assert (dedupe_key r ≠ "") by (intros E; by rewrite E in Et).
      destruct (decide (dedupe_key r ∈ seen)); rewrite IH.
      * intuition (subst; auto).
      * rewrite elem_of_union, elem_of_singleton. intuition (subst; auto).
    + apply truthy_false_iff in Et. rewrite IH, Et. intuition congruence.
Qed.

Lemma kept_app (l1 l2 : list Row) (seen : gset string) :
  kept (l1 ++ l2) seen = kept l1 seen ++ kept l2 (seen_after l1 seen).
Proof.
  revert seen. induction l1 as [|r l1 IH]; intros seen; simpl; [done|].
  destruct (negb (PyStr.truthy (dedupe_key r))); [apply IH|].
  destruct (decide (dedupe_key r ∈ seen)); [apply IH|].
  by rewrite IH.
Qed.

Lemma kept_key_seen (rows : list Row) (seen : gset string) (r : Row) :
  r ∈ kept rows seen → dedupe_key r ∈ seen_after rows seen.
Proof.
  revert seen. induction rows as [|x rows IH]; intros seen; simpl.
  - by rewrite elem_of_nil.
  - destruct (PyStr.truthy (dedupe_key x)) eqn:Et; simpl; [|apply IH].
    destruct (decide (dedupe_key x ∈ seen)); [apply IH|].
    rewrite elem_of_cons. intros [->|Hin]; [|by apply IH].
    apply seen_after_spec. left. set_solver.
Qed.

Lemma kept_idem (rows : list Row) (seen : gset string) :
  kept (kept rows seen) seen = kept rows seen.
Proof.
  revert seen. induction rows as [|r rows IH]; intros seen; simpl; [done|].
  destruct (PyStr.truthy (dedupe_key r)) eqn:Et; simpl; [|apply IH].
  destruct (decide (dedupe_key r ∈ seen)) as [Hin|Hnin]; [apply IH|].
  simpl. rewrite Et. simpl.
  destruct (decide (dedupe_key r ∈ seen)); [done|].
  by rewrite IH.
Qed.

(** C8. Deduplication is idempotent: applying [dedupe] to its own result
    changes nothing, for every sequence of records. *)
Theorem dedupe_idempotent (X : list Row) : dedupe (dedupe X) = dedupe X.
Proof. rewrite !dedupe_kept. apply kept_idem. Qed.

Lemma dedupe_snoc (rows : list Row) (r : Row) :
  dedupe (rows ++ [r]) =
  dedupe rows ++ (if first_occurrence dedupe_key rows r then [r] else []).
Proof.
  rewrite !dedupe_kept, kept_app. f_equal. simpl.
  unfold first_occurrence.
  destruct (PyStr.truthy (dedupe_key r)) eqn:Et; simpl.
  - assert (dedupe_key r ≠ "") by (intros E; by rewrite E in Et).
    destruct (decide (dedupe_key r ∈ seen_after rows ∅)) as [Hin|Hnin].
    + rewrite bool_decide_eq_false_2; [done|].
      apply seen_after_spec in Hin as [Hin|[_ Hin]]; [|tauto].
      by apply not_elem_of_empty in Hin.
    + rewrite bool_decide_eq_true_2; [done|].
      split; [done|]. intros Hin. apply Hnin, seen_after_spec. auto.
  - apply truthy_false_iff in Et.
    rewrite bool_decide_eq_false_2; [done|]. tauto.
Qed.

(** C4, as the code has it. [dedupe] returns an order-preserving
    subsequence of its input, never longer than the input, in which the
    first occurrence of each key wins: a record is kept exactly when its
    key is non-empty and no earlier record has the same key. The key is the
    link if non-empty, else the title, with surrounding whitespace removed
    ([dedupe_key r = strip (raw_key r)]); so a record whose link and title
    are both empty is dropped, and on records whose title and link are
    already stripped, as [try_feed_urls] builds them, the key is the link
    if non-empty, else the title, unchanged. *)
Theorem dedupe_first_occurrence_wins (rows : list Row) (r : Row)
    (s t l p : string) (d : option datetime) :
  dedupe rows `sublist_of` rows
  ∧ length (dedupe rows) ≤ length rows
  ∧ dedupe_key r = PyStr.strip (raw_key r)
  ∧ dedupe (rows ++ [r]) =
      dedupe rows ++ (if first_occurrence dedupe_key rows r then [r] else [])
  ∧ dedupe (rows ++ [mk_row s "" "" p d]) = dedupe rows
  ∧ dedupe_key (mk_row s (PyStr.strip t) (PyStr.strip l) p d)
    = raw_key (mk_row s (PyStr.strip t) (PyStr.strip l) p d).
Proof.
  assert (Hsub : dedupe rows `sublist_of` rows)
    by (rewrite dedupe_kept; apply kept_sublist).
  split; [exact Hsub|]. split; [by apply sublist_length|].
  split; [apply dedupe_key_raw|]. split; [apply dedupe_snoc|]. split.
  - rewrite dedupe_snoc. unfold first_occurrence.
    rewrite bool_decide_eq_false_2; [by rewrite app_nil_r|].
    intros [Hk _]. by apply Hk.
  - rewrite dedupe_key_raw. unfold raw_key. simpl.
    destruct (PyStr.truthy (PyStr.strip l)); apply strip_idem.
Qed.

(** C4, as the specification words it (the key is the link if non-empty,
    else the title, compared as it stands), fails: a link that differs from
    an earlier one only by a leading blank is a new key in those words, yet
    [dedupe] drops its record. *)
Lemma dedupe_raw_key_counterexample :
  ¬ (∀ (rows : list Row) (r : Row),
       dedupe (rows ++ [r]) =
       dedupe rows ++ (if first_occurrence raw_key rows r then [r] else [])).
Proof.
  intros H.
  specialize (H [mk_row "A" "first" "https://x/y" "" None]
                (mk_row "B" "second" " https://x/y" "" None)).
  vm_compute in H. discriminate H.
Qed.

(** C10. Keys taken from the link and from the title share one namespace:
    a record whose key (its non-empty link, else its title) equals the key
    of an earlier record that survived contributes nothing to the result,
    whichever fields the two keys come from. *)
Theorem dedupe_keys_share_namespace (pre post : list Row) (r1 r2 : Row) :
  r1 ∈ dedupe pre →
  raw_key r1 = raw_key r2 →
  dedupe (pre ++ r2 :: post) = dedupe (pre ++ post).
Proof.
  intros Hin Hkey. rewrite !dedupe_kept in *. rewrite !kept_app. f_equal.
  apply kept_key_seen in Hin.
  assert (Hk : dedupe_key r2 = dedupe_key r1)
    by (by rewrite !dedupe_key_raw, Hkey).
  simpl. rewrite Hk.
  destruct (negb (PyStr.truthy (dedupe_key r1))); [done|].
  by destruct (decide (dedupe_key r1 ∈ seen_after pre ∅)).
Qed.

(** A record with no link whose title is the link of an earlier survivor
    is dropped. *)
Lemma dedupe_keys_share_namespace_witness :
  let r1 := mk_row "A" "first" "https://x/y" "" None in
  let r2 := mk_row "B" "https://x/y" "" "" None in
  let r3 := mk_row "B" "third" "https://x/z" "" None in
  r1 ∈ dedupe [r1]
  ∧ raw_key r1 = raw_key r2
  ∧ dedupe ([r1] ++ r2 :: [r3]) = dedupe ([r1] ++ [r3]).
Proof.
  intros r1 r2 r3.
  assert (H1 : r1 ∈ dedupe [r1]) by (vm_compute; apply list_elem_of_here).
  assert (H2 : raw_key r1 = raw_key r2) by reflexivity.
  exact (conj H1 (conj H2 (dedupe_keys_share_namespace [r1] [r3] r1 r2 H1 H2))).
Defined.

(** ** The monad *)

Lemma urls_requested_app (t1 t2 : list event) :
  urls_requested (t1 ++ t2) = urls_requested t1 ++ urls_requested t2.
Proof. apply omap_app. Qed.

Lemma files_written_app (t1 t2 : list event) :
  files_written (t1 ++ t2) = files_written t1 ++ files_written t2.
Proof. apply omap_app. Qed.

Lemma bind_run {W A B} (m : M W A) (k : A → M W B) (w : W)
    (t1 : list event) (w1 : W) (a : A) :
  m w = (t1, w1, inr a) →
  bind m k w = (t1 ++ trace_of (k a w1), world_of (k a w1), value_of (k a w1)).
Proof.
  intros E. unfold bind. rewrite E.
  by destruct (k a w1) as [[t2 w2] r].
Qed.

Lemma bind_print {W B} (line : string) (k : unit → M W B) (w : W) :
  bind (print line) k w =
  (EvPrint line :: trace_of (k tt w), world_of (k tt w), value_of (k tt w)).
Proof. by rewrite (bind_run _ _ _ [EvPrint line] w tt). Qed.

Lemma bind_ret_l {W A B} (a : A) (k : A → M W B) (w : W) :
  bind (ret a) k w = k a w.
Proof. unfold bind, ret. by destruct (k a w) as [[t2 w2] r]. Qed.

Lemma bind_raise {W A B} (e : exn) (k : A → M W B) (w : W) :
  bind (raise e) k w = ([], w, inl e).
Proof. reflexivity. Qed.

Lemma bind_bind {W A B C} (m : M W A) (f : A → M W B) (g : B → M W C) (w : W) :
  bind (bind m f) g w = bind m (fun a => bind (f a) g) w.
Proof.
  unfold bind. destruct (m w) as [[t1 w1] [e|a]]; [done|].
  destruct (f a w1) as [[t2 w2] [e|b]]; [done|].
  destruct (g b w2) as [[t3 w3] r]. by rewrite app_assoc.
Qed.

(** ** [fetch_feed_text] *)

Lemma fetch_feed_text_run `{World W} (url : string) (timeout : Z) (w : W) :
  fetch_feed_text url timeout w =
  ([EvGet url REQUEST_HEADERS timeout],
   (requests_get url REQUEST_HEADERS timeout w).2,
   inr (fetched (requests_get url REQUEST_HEADERS timeout w).1)).
Proof.
  unfold fetch_feed_text, try_except, bind, http_get, ret.
  destruct (requests_get url REQUEST_HEADERS timeout w) as [[[msg]|r] w1];
    reflexivity.
Qed.

(** ** [try_feed_urls] *)

Lemma append_rows_map `{Libs} (name : string) (es : list Entry) (rows : list Row) :
  append_rows name es rows = rows ++ map (normalize_entry name) es.
Proof.
  unfold append_rows. revert rows.
  induction es as [|e es IH]; intros rows; simpl.
  - by rewrite app_nil_r.
  - rewrite IH. by rewrite <- app_assoc.
Qed.

Lemma urls_requested_print (line : string) (t : list event) :
  urls_requested (EvPrint line :: t) = urls_requested t.
Proof. reflexivity. Qed.

Lemma urls_requested_get (url : string) (h : list (string * string)) (z : Z)
    (t : list event) :
  urls_requested (EvGet url h z :: t) = url :: urls_requested t.
Proof. reflexivity. Qed.

Lemma files_written_print (line : string) (t : list event) :
  files_written (EvPrint line :: t) = files_written t.
Proof. reflexivity. Qed.

Lemma files_written_get (url : string) (h : list (string * string)) (z : Z)
    (t : list event) :
  files_written (EvGet url h z :: t) = files_written t.
Proof. reflexivity. Qed.

Lemma files_written_write (path : string) (df : Table) (t : list event) :
  files_written (EvWrite path df :: t) = path :: files_written t.
Proof. reflexivity. Qed.

Create Rewrite HintDb trace.

#[local] Hint Rewrite urls_requested_print urls_requested_get
  urls_requested_app files_written_print files_written_get
  files_written_write files_written_app : trace.

Lemma try_feed_urls_step `{Libs} `{World W} (url : string) (rest : list string)
    (n : nat) (name : string) (w : W) :
  ∃ t0, urls_requested t0 = [url] ∧ files_written t0 = []
        ∧ try_feed_urls (url :: rest) n name w =
          match yield (request url w).1 with
          | [] =>
              (t0 ++ trace_of (try_feed_urls rest n name (request url w).2),
               world_of (try_feed_urls rest n name (request url w).2),
               value_of (try_feed_urls rest n name (request url w).2))
          | es =>
              (t0, (request url w).2,
               inr (map (normalize_entry name) (take n es)))
          end.
Proof.
  cbn [try_feed_urls]. rewrite bind_print.
  rewrite (bind_run _ _ _ _ _ _ (fetch_feed_text_run url 15 w)).
  unfold request, yield.
  destruct (requests_get url REQUEST_HEADERS 15 w) as [[[msg]|r] w1];
    cbn [fst snd fetched body_of]; rewrite bind_print;
    cbn [default from_option id].
  - cbn [negb PyStr.truthy]. rewrite bind_print.
    cbn [trace_of world_of value_of fst snd].
    eexists (_ :: _ :: _ :: [_]). split_and!. 3: reflexivity. all: reflexivity.
  - destruct (PyStr.truthy (text r)) eqn:Et; cbn [negb].
    + rewrite bind_print. unfold parse_with_feedparser_from_text.
      set (p := feedparser_parse (text r)).
      assert (Hb : ∃ tb, urls_requested tb = [] ∧ files_written tb = []
                ∧ ∀ B (k : unit → M W B),
                bind (if bozo p then print (" bozo_exception: " +:+ bozo_exception p) else ret tt) k w1
                = (tb ++ trace_of (k tt w1), world_of (k tt w1), value_of (k tt w1))).
      { destruct (bozo p).
        - exists [EvPrint (" bozo_exception: " +:+ bozo_exception p)].
          split_and!; [reflexivity..|]. intros. by rewrite bind_print.
        - exists []. split_and!; [reflexivity..|]. intros.
          by rewrite (bind_run _ _ _ [] w1 tt). }
      destruct Hb as (tb & Hb1 & Hb2 & Hb). rewrite Hb.
      destruct (entries p) as [|e es] eqn:Ees.
      * cbn [length Nat.eqb]. rewrite !bind_print.
        cbn [trace_of world_of value_of fst snd].
        eexists (_ :: _ :: _ :: _ :: tb ++ _ :: [_]).
        split_and!.
        3:{ f_equal. f_equal. cbn [app]. do 4 f_equal. by rewrite <- app_assoc. }
        -- autorewrite with trace. by rewrite Hb1.
        -- autorewrite with trace. by rewrite Hb2.
      * cbn [length Nat.eqb]. unfold ret.
        cbn [trace_of world_of value_of fst snd].
        rewrite append_rows_map. cbn [app].
        eexists (_ :: _ :: _ :: _ :: tb ++ []).
        split_and!. 3: reflexivity.
        -- autorewrite with trace. by rewrite Hb1.
        -- autorewrite with trace. by rewrite Hb2.
    + rewrite bind_print. cbn [trace_of world_of value_of fst snd].
      eexists (_ :: _ :: _ :: [_]). split_and!. 3: reflexivity. all: reflexivity.
Qed.

Lemma attempt_fails_iff `{Libs} `{World W} (url : string) (w w' : W) :
  attempt_fails url w w' ↔
  (request url w).2 = w' ∧ yield (request url w).1 = [].
Proof.
  unfold yield. split.
  - intros [e E | r E Ht | r E Ht He]; rewrite E; simpl; split; try done.
    + by rewrite Ht.
    + rewrite He. by destruct (PyStr.truthy (text r)).
  - destruct (request url w) as [[e|r] w1] eqn:E; simpl; intros [-> Hy].
    + by eapply transport_failure.
    + destruct (PyStr.truthy (text r)) eqn:Et.
      * eapply no_entries; [done| |done]. intros E0. by rewrite E0 in Et.
      * eapply empty_body; [done|]. by apply truthy_false_iff.
Qed.

Lemma attempt_yields_iff `{Libs} `{World W} (url : string) (w w' : W)
    (es : list Entry) :
  attempt_yields url w w' es ↔
  (request url w).2 = w' ∧ yield (request url w).1 = es ∧ es ≠ [].
Proof.
  unfold attempt_yields, yield. split.
  - intros (r & E & Ht & He & Hne). rewrite E. simpl.
    destruct (PyStr.truthy (text r)) eqn:Et; [done|].
    by apply truthy_false_iff in Et.
  - destruct (request url w) as [[e|r] w1] eqn:E; simpl;
      intros (-> & Hy & Hne); [by subst|].
    destruct (PyStr.truthy (text r)) eqn:Et; [|by subst].
    exists r. split_and!; try done. intros E0. by rewrite E0 in Et.
Qed.

(** C6. If every candidate URL of a source fails at transport, has an
    empty body or yields no parsed entry, [try_feed_urls] returns the empty
    list, having tried them all, and raises nothing; and [fetch_feed_text]
    always returns a tuple, which is [(None, None, "error: ...")] when the
    request raised. *)
Theorem try_feed_urls_all_fail `{Libs} `{World W} (url_list : list string)
    (max_items : nat) (debug_name : string) (w w' : W) :
  all_fail url_list w w' →
  (∃ t, try_feed_urls url_list max_items debug_name w = (t, w', inr [])
        ∧ urls_requested t = url_list)
  ∧ (∀ (url : string) (timeout : Z) (w0 : W),
       ∃ res, value_of (fetch_feed_text url timeout w0) = inr res
              ∧ ∀ msg, (requests_get url REQUEST_HEADERS timeout w0).1
                       = inl (Exception msg) →
                       res = (None, None, "error: " +:+ msg)).
Proof.
  intros Hall. split.
  - induction Hall as [w|url urls w w1 w2 Hf Hall (t & IH & Hu)].
    + by exists [].
    + destruct (try_feed_urls_step url urls max_items debug_name w)
        as (t0 & Hu0 & _ & Heq).
      apply attempt_fails_iff in Hf as [Hw Hy].
      rewrite Hy, Hw, IH in Heq. exists (t0 ++ t). split; [done|].
      by rewrite urls_requested_app, Hu0, Hu.
  - intros url timeout w0. rewrite fetch_feed_text_run. eexists.
    split; [reflexivity|]. intros msg E. by rewrite E.
Qed.

(** C2. [try_feed_urls] returns at most [max_items] rows and raises
    nothing. Either every URL was requested and failed, and no row is
    returned; or the URLs requested are exactly those up to the first one
    that yields entries, and the rows are the normalized first [max_items]
    of these entries, in the parser's order, however few they are. *)
Theorem try_feed_urls_first_success `{Libs} `{World W}
    (url_list : list string) (max_items : nat) (debug_name : string) (w : W) :
  ∃ t w' rows,
    try_feed_urls url_list max_items debug_name w = (t, w', inr rows)
    ∧ length rows ≤ max_items
    ∧ ((rows = [] ∧ all_fail url_list w w' ∧ urls_requested t = url_list)
       ∨ (∃ pre url post w1 es,
            url_list = pre ++ url :: post
            ∧ all_fail pre w w1
            ∧ attempt_yields url w1 w' es
            ∧ rows = map (normalize_entry debug_name) (take max_items es)
            ∧ urls_requested t = pre ++ [url])).
Proof.
  revert w. induction url_list as [|url rest IH]; intros w.
  - exists [], w, []. split_and!; [done|simpl; lia|].
    left. split_and!; [done|constructor|done].
  - destruct (try_feed_urls_step url rest max_items debug_name w)
      as (t0 & Hu0 & _ & Heq).
    destruct (yield (request url w).1) as [|e es] eqn:Ey.
    + destruct (IH (request url w).2) as (t & w' & rows & E & Hlen & Hcase).
      rewrite E in Heq. exists (t0 ++ t), w', rows.
      assert (Hf : attempt_fails url w (request url w).2)
        by (by apply attempt_fails_iff).
      split_and!; [done|done|].
      destruct Hcase as [(-> & Hall & Hu)
                        |(pre & u & post & w1 & es & -> & Hall & Hy & -> & Hu)].
      * left. split_and!; [done|by econstructor|].
        by rewrite urls_requested_app, Hu0, Hu.
      * right. exists (url :: pre), u, post, w1, es.
        split_and!; [done|by econstructor|done|done|].
        by rewrite urls_requested_app, Hu0, Hu.
    + eexists t0, _, _. split_and!; [exact Heq| |].
      * rewrite length_map, length_take. lia.
      * right. exists [], url, rest, w, (e :: es).
        split_and!; [done|constructor| |done|done].
        by apply attempt_yields_iff.
Qed.

(** In the world where TechCrunch answers and the Economic Times does not,
    the four Economic Times URLs fail in the three ways and no row comes
    back. *)
Lemma try_feed_urls_all_fail_witness :
  let urls :=
    [ "https://b2b.economictimes.indiatimes.com/rss/topstories";
      "https://economictimes.indiatimes.com/feeds/newsdefault.cms";
      "https://economictimes.indiatimes.com/rssfeedsdefault.cms";
      "https://economictimes.indiatimes.com/defaultinterstitial.cms" ] in
  @all_fail toy_libs nat (scripted (net_five 200)) urls 0%nat 4%nat
  ∧ (∃ t, @try_feed_urls toy_libs nat (scripted (net_five 200))
            urls 4 "Economic Times - Top Stories" 0%nat = (t, 4%nat, inr [])
          ∧ urls_requested t = urls).
Proof.
  intros urls.
  assert (Hall : @all_fail toy_libs nat (scripted (net_five 200)) urls 0%nat 4%nat).
  { eapply all_fail_cons; [eapply transport_failure; reflexivity|].
    eapply all_fail_cons; [eapply empty_body; reflexivity|].
    eapply all_fail_cons; [eapply no_entries; [reflexivity|done|reflexivity]|].
    eapply all_fail_cons; [eapply transport_failure; reflexivity|].
    apply all_fail_nil. }
  split; [exact Hall|].
  exact (proj1 (@try_feed_urls_all_fail toy_libs nat (scripted (net_five 200))
                  urls 4 "Economic Times - Top Stories" 0%nat 4%nat Hall)).
Defined.

Lemma yield_body `{Libs} (o1 o2 : exn + Response) :
  body_of o1 = body_of o2 → yield o1 = yield o2.
Proof. unfold yield. by intros ->. Qed.

(** C9. The rows [try_feed_urls] returns do not depend on status codes or
    content types: in two worlds whose responses carry the same bodies,
    request after request, it requests the same URLs and returns the same
    rows. *)
Theorem try_feed_urls_status_blind `{Libs} {W1 W2 : Type}
    (Wd1 : World W1) (Wd2 : World W2) (R : W1 → W2 → Prop)
    (url_list : list string) (max_items : nat) (debug_name : string)
    (w1 : W1) (w2 : W2) :
  (∀ url v1 v2, R v1 v2 →
     body_of (request url v1).1 = body_of (request url v2).1
     ∧ R (request url v1).2 (request url v2).2) →
  R w1 w2 →
  value_of (try_feed_urls url_list max_items debug_name w1)
  = value_of (try_feed_urls url_list max_items debug_name w2)
  ∧ urls_requested (trace_of (try_feed_urls url_list max_items debug_name w1))
    = urls_requested (trace_of (try_feed_urls url_list max_items debug_name w2))
  ∧ R (world_of (try_feed_urls url_list max_items debug_name w1))
      (world_of (try_feed_urls url_list max_items debug_name w2)).
Proof.
  intros Hsim. revert w1 w2.
  induction url_list as [|url rest IH]; intros w1 w2 HR; [done|].
  destruct (try_feed_urls_step url rest max_items debug_name w1)
    as (t1 & Hu1 & _ & E1).
  destruct (try_feed_urls_step url rest max_items debug_name w2)
    as (t2 & Hu2 & _ & E2).
  destruct (Hsim url w1 w2 HR) as [Hbody HR'].
  rewrite E1, E2, (yield_body _ _ Hbody).
  destruct (yield (request url w2).1).
  - destruct (IH _ _ HR') as (Hv & Hu & Hw).
    unfold value_of, trace_of, world_of in *. simpl.
    by rewrite !urls_requested_app, Hu1, Hu2, Hu, Hv.
  - unfold value_of, trace_of, world_of. simpl. by rewrite Hu1, Hu2.
Qed.

(** The feed served with status 200 and with status 503 gives the same
    rows. *)
Lemma try_feed_urls_status_blind_witness :
  (∀ (url : string) (v1 v2 : nat), v1 = v2 →
     body_of (@request nat (scripted (net_five 200)) url v1).1
     = body_of (@request nat (scripted (net_five 503)) url v2).1
     ∧ (@request nat (scripted (net_five 200)) url v1).2
       = (@request nat (scripted (net_five 503)) url v2).2)
  ∧ value_of (@try_feed_urls toy_libs nat (scripted (net_five 200))
                ["https://techcrunch.com/feed/"] 4 "TechCrunch" 0%nat)
    = value_of (@try_feed_urls toy_libs nat (scripted (net_five 503))
                  ["https://techcrunch.com/feed/"] 4 "TechCrunch" 0%nat).
Proof.
  assert (Hsim : ∀ (url : string) (v1 v2 : nat), v1 = v2 →
     body_of (@request nat (scripted (net_five 200)) url v1).1
     = body_of (@request nat (scripted (net_five 503)) url v2).1
     ∧ (@request nat (scripted (net_five 200)) url v1).2
       = (@request nat (scripted (net_five 503)) url v2).2).
  { intros url v1 v2 ->. unfold request. simpl. unfold net_five.
    by destruct (String.eqb url "https://techcrunch.com/feed/"). }
  split; [exact Hsim|].
  exact (proj1 (@try_feed_urls_status_blind toy_libs nat nat
                  (scripted (net_five 200)) (scripted (net_five 503)) eq
                  ["https://techcrunch.com/feed/"] 4 "TechCrunch" 0%nat 0%nat
                  Hsim eq_refl)).
Defined.

(** C5. The row built from an entry takes its [source] from the configured
    name; its [title] and [link] are the entry's, stripped, or empty when
    the entry has none; its [published] text is the entry's published text
    if there is a non-empty one, else its updated text, else empty; and its
    [published_dt] is built from the date tuple when the parser supplied
    one, else parsed from a non-empty [published] text, and is absent when
    the attempt made fails or there is nothing to parse. *)
Theorem normalize_entry_fields `{Libs} (debug_name : string) (e : Entry) :
  let r := normalize_entry debug_name e in
  source r = debug_name
  ∧ title r = PyStr.strip (default "" (e_title e))
  ∧ link r = PyStr.strip (default "" (e_link e))
  ∧ PyStr.trimmed (title r) ∧ PyStr.trimmed (link r)
  ∧ published r = match e_published e with
                  | Some (String c s) => String c s
                  | _ => default "" (e_updated e)
                  end
  ∧ published_dt r = match e_published_parsed e with
                     | Some (x :: t) => PyDate.construct (take 6 (x :: t))
                     | _ => match published r with
                            | "" => None
                            | p => dateutil_parse p
                            end
                     end.
Proof.
  simpl. split_and!; try done; try apply strip_trimmed.
  - unfold PyStr.or_else. by destruct (e_published e) as [[|c s]|].
  - destruct (e_published_parsed e) as [[|x t]|]; try done;
      by destruct (PyStr.or_else _ _).
Qed.

(** ** Sorting by date *)

Lemma key_lt_flip (a b : option datetime) :
  PyDate.key_lt a b = Some true → PyDate.key_lt b a = Some false.
Proof.
  unfold PyDate.key_lt, PyDate.lt.
  destruct a as [[wa [oa|]]|], b as [[wb [ob|]]|]; simpl; try done;
    intros [= E]; f_equal; lia.
Qed.

Lemma key_lt_trans (a b c : option datetime) :
  PyDate.key_lt a b = Some false → PyDate.key_lt b c = Some false →
  PyDate.key_lt a c = Some false.
Proof.
  unfold PyDate.key_lt, PyDate.lt.
  destruct a as [[wa [oa|]]|], b as [[wb [ob|]]|], c as [[wc [oc|]]|];
    simpl; try done; intros [= E1] [= E2]; f_equal; lia.
Qed.

(** [not_older a b]: both rows are dated, both dates naive or both aware,
    and the instant of [b] is not after that of [a]. *)
Lemma not_older_instant (a b : Row) :
  not_older a b ↔
  ∃ x y, published_dt a = Some x ∧ published_dt b = Some y
         ∧ (is_Some (dt_utcoffset x) ↔ is_Some (dt_utcoffset y))
         ∧ (PyDate.instant y ≤ PyDate.instant x)%Z.
Proof.
  unfold not_older, PyDate.key_lt, PyDate.lt, PyDate.instant. split.
  - destruct (published_dt a) as [x|], (published_dt b) as [y|]; try done.
    intros E. exists x, y.
    destruct x as [wa [oa|]], y as [wb [ob|]]; simpl in *; try done;
      injection E as E; (split_and!; [done|done| |lia]);
      first [reflexivity | split; intros _; eauto].
  - intros ([wa oa] & [wb ob] & -> & -> & Hk & Hle). simpl in *.
    destruct oa, ob; try (f_equal; lia).
    + destruct Hk as [Hk _]. by destruct Hk.
    + destruct Hk as [_ Hk]. by destruct Hk.
Qed.

#[local] Instance not_older_trans : Transitive not_older.
Proof. intros a b c. apply key_lt_trans. Qed.

Lemma insert_desc_perm (x : Row) (l l' : list Row) :
  insert_desc x l = Some l' → l' ≡ₚ x :: l.
Proof.
  revert l'. induction l as [|y l IH]; intros l'; simpl.
  - by intros [= <-].
  - destruct (PyDate.key_lt (published_dt x) (published_dt y)) as [[|]|];
      [|by intros [= <-]|done].
    destruct (insert_desc x l) as [s|]; [|done]. intros [= <-].
    rewrite (IH s eq_refl). apply Permutation_swap.
Qed.

Lemma insert_desc_sorted (x : Row) (l l' : list Row) :
  StronglySorted not_older l → insert_desc x l = Some l' →
  StronglySorted not_older l'.
Proof.
  revert l'. induction l as [|y l IH]; intros l' Hs; simpl.
  - intros [= <-]. repeat constructor.
  - apply StronglySorted_cons in Hs as [Hy Hs].
    destruct (PyDate.key_lt (published_dt x) (published_dt y)) as [[|]|] eqn:E;
      [| |done].
    + destruct (insert_desc x l) as [s|] eqn:Ei; [|done]. intros [= <-].
      apply StronglySorted_cons. split; [|by apply IH].
      rewrite (insert_desc_perm _ _ _ Ei). constructor; [|done].
      by apply key_lt_flip.
    + intros [= <-]. apply StronglySorted_cons. split.
      * constructor; [done|].
        eapply Forall_impl; [exact Hy|]. intros z Hz. by transitivity y.
      * by apply StronglySorted_cons.
Qed.

Lemma sort_desc_perm (l s : list Row) : sort_desc l = Some s → s ≡ₚ l.
Proof.
  revert s. induction l as [|x l IH]; intros s; simpl.
  - by intros [= <-].
  - destruct (sort_desc l) as [s'|]; [|done]. intros Hi.
    rewrite (insert_desc_perm _ _ _ Hi). by rewrite (IH s' eq_refl).
Qed.

Lemma sort_desc_sorted (l s : list Row) :
  sort_desc l = Some s → StronglySorted not_older s.
Proof.
  revert s. induction l as [|x l IH]; intros s; simpl.
  - intros [= <-]. constructor.
  - destruct (sort_desc l) as [s'|]; [|done].
    apply insert_desc_sorted. by apply IH.
Qed.

Lemma Forall_sublist_of {A} (P : A → Prop) (l1 l2 : list A) :
  l1 `sublist_of` l2 → Forall P l2 → Forall P l1.
Proof.
  induction 1 as [|x l1 l2 _ IH|x l1 l2 _ IH]; [done| |];
    rewrite ?Forall_cons; tauto.
Qed.

Lemma StronglySorted_sublist_of {A} (R : relation A) (l1 l2 : list A) :
  l1 `sublist_of` l2 → StronglySorted R l2 → StronglySorted R l1.
Proof.
  induction 1 as [|x l1 l2 Hs IH|x l1 l2 Hs IH]; [done| |];
    rewrite ?StronglySorted_cons; intros [Hx Hl].
  - split; [by eapply Forall_sublist_of|by apply IH].
  - by apply IH.
Qed.

(** What [global_top] returns: dated rows only, newest first, at most
    [TOTAL_GLOBAL_TOP], taken from the input. *)
Lemma global_top_spec (rows out : list Row) :
  global_top rows = inr out →
  Forall (λ r, is_Some (published_dt r)) out
  ∧ StronglySorted not_older out
  ∧ length out ≤ TOTAL_GLOBAL_TOP.
Proof.
  unfold global_top.
  destruct (sort_desc (List.filter has_published_dt rows)) as [s|] eqn:E;
    [|done].
  intros [= <-]. split_and!.
  - eapply Forall_sublist_of; [apply sublist_take|].
    rewrite (sort_desc_perm _ _ E). apply Forall_forall. intros r Hr.
    apply list_elem_of_In, filter_In in Hr as [_ Hr].
    unfold has_published_dt in Hr. by destruct (published_dt r).
  - eapply StronglySorted_sublist_of; [apply sublist_take|].
    by eapply sort_desc_sorted.
  - rewrite length_take. lia.
Qed.

(** ** [main] *)

Lemma try_feed_urls_returns `{Libs} `{World W} (url_list : list string)
    (max_items : nat) (debug_name : string) (w : W) :
  ∃ t w' rows,
    try_feed_urls url_list max_items debug_name w = (t, w', inr rows)
    ∧ files_written t = [].
Proof.
  revert w. induction url_list as [|url rest IH]; intros w.
  - by exists [], w, [].
  - destruct (try_feed_urls_step url rest max_items debug_name w)
      as (t0 & _ & Hf0 & Heq).
    destruct (yield (request url w).1).
    + destruct (IH (request url w).2) as (t & w' & rows & E & Hf).
      rewrite E in Heq. exists (t0 ++ t), w', rows. split; [done|].
      by rewrite files_written_app, Hf0, Hf.
    + by eexists t0, _, _.
Qed.

Lemma fetch_sources_batches `{Libs} `{World W}
    (feeds : list (string * list string)) (max_items : nat)
    (all_rows : list Row) (w : W) :
  ∃ t w' bs,
    batches max_items feeds w bs w'
    ∧ fetch_sources feeds max_items all_rows w
      = (t, w', inr (all_rows ++ concat bs))
    ∧ files_written t = [].
Proof.
  revert all_rows w.
  induction feeds as [|[name urls] feeds IH]; intros all_rows w.
  - exists [], w, []. split_and!; [constructor| |done].
    simpl. by rewrite app_nil_r.
  - destruct (try_feed_urls_returns urls max_items name w)
      as (t1 & w1 & rows & E1 & F1).
    destruct (IH (all_rows ++ rows) w1) as (t2 & w2 & bs & Hb & E2 & F2).
    cbn [fetch_sources]. rewrite (bind_run _ _ _ _ _ _ E1), bind_print, E2.
    eexists _, w2, (rows :: bs). split_and!; [by econstructor| |].
    + simpl. by rewrite app_assoc.
    + unfold trace_of. cbn [fst]. autorewrite with trace. by rewrite F1, F2.
Qed.

Lemma main_rows_run `{Libs} `{World W} (mode : string) (w : W) :
  ∃ t w' bs,
    batches (cap_of mode) FEEDS w bs w'
    ∧ main_rows mode w = (t, w', rows_of mode (concat bs))
    ∧ files_written t = [].
Proof.
  destruct (fetch_sources_batches FEEDS (cap_of mode) [] w)
    as (t & w' & bs & Hb & E & F).
  exists (EvPrint ("Mode: " +:+ mode) :: t), w', bs.
  split_and!; [done| |done].
  unfold main_rows, cap_of, rows_of in *. rewrite bind_print.
  destruct (String.eqb mode "per_source").
  - rewrite (bind_run _ _ _ _ _ _ E).
    cbn [ret trace_of world_of value_of fst snd]. by rewrite app_nil_r.
  - rewrite bind_bind, (bind_run _ _ _ _ _ _ E).
    unfold dedupe_after_select, global_top, sort_by_published_dt_reverse.
    rewrite app_nil_l. cbv beta.
    destruct (sort_desc (List.filter has_published_dt (concat bs))).
    + rewrite bind_bind, !bind_ret_l.
      cbn [ret trace_of world_of value_of fst snd]. by rewrite app_nil_r.
    + rewrite bind_bind, bind_raise.
      cbn [trace_of world_of value_of fst snd]. by rewrite app_nil_r.
Qed.

(** C1, as the code has it. Every run applies [dedupe] exactly once, as the
    last step: in per-source mode to the concatenation of the per-source
    batches, and in global-top mode to what discarding the undated rows,
    sorting and truncating leaves of that concatenation. *)
Theorem main_rows_dedupes_last `{Libs} `{World W} (w : W) :
  (∃ bs w', batches HEADLINES_PER_SOURCE FEEDS w bs w'
            ∧ value_of (main_rows "per_source" w) = inr (dedupe (concat bs)))
  ∧ (∃ bs w', batches MAX_PER_SOURCE_FOR_GLOBAL FEEDS w bs w'
              ∧ value_of (main_rows "global_top" w)
                = dedupe_after_select (concat bs)).
Proof.
  split.
  - destruct (main_rows_run "per_source" w) as (t & w' & bs & Hb & E & _).
    exists bs, w'. split; [exact Hb|]. by rewrite E.
  - destruct (main_rows_run "global_top" w) as (t & w' & bs & Hb & E & _).
    exists bs, w'. split; [exact Hb|]. by rewrite E.
Qed.

(** C1, as the specification words it ([dedupe] on the concatenation, the
    global-top policy afterwards), fails: when the two newest of five dated
    entries share a link, [main] keeps the four newest and then drops the
    duplicate, leaving three rows, where the specified order leaves
    four. *)
Lemma main_rows_select_after_dedupe_counterexample :
  ¬ (∀ (L : Libs) (W : Type) (Wd : World W) (w w' : W)
       (bs : list (list Row)),
       batches MAX_PER_SOURCE_FOR_GLOBAL FEEDS w bs w' →
       value_of (main_rows "global_top" w) = select_after_dedupe (concat bs)).
Proof.
  intros Hc.
  assert (Hb : @batches toy_libs nat (scripted (net_five 200))
                 MAX_PER_SOURCE_FOR_GLOBAL FEEDS 0%nat
                 [map (@normalize_entry toy_libs "TechCrunch") five_entries; []]
                 5%nat).
  { eapply batches_cons; [vm_compute; reflexivity|].
    eapply batches_cons; [vm_compute; reflexivity|].
    apply batches_nil. }
  specialize (Hc _ _ _ _ _ _ Hb). vm_compute in Hc. discriminate Hc.
Qed.

(** C3. In global-top mode the rows [main] goes on with all have a
    [published_dt], never increase in it from one row to the next, and are
    at most [TOTAL_GLOBAL_TOP] = 4. *)
Theorem main_rows_global_top_sorted `{Libs} `{World W} (w : W)
    (out : list Row) :
  value_of (main_rows "global_top" w) = inr out →
  Forall (λ r, is_Some (published_dt r)) out
  ∧ StronglySorted not_older out
  ∧ length out ≤ TOTAL_GLOBAL_TOP
  ∧ TOTAL_GLOBAL_TOP = 4.
Proof.
  destruct (main_rows_run "global_top" w) as (t & w' & bs & _ & E & _).
  rewrite E. unfold value_of, rows_of, dedupe_after_select. simpl.
  destruct (global_top (concat bs)) as [e|rows] eqn:Eg; [done|].
  intros [= <-]. destruct (global_top_spec _ _ Eg) as (Hd & Hs & Hl).
  assert (Hsub : dedupe rows `sublist_of` rows)
    by (rewrite dedupe_kept; apply kept_sublist).
  split_and!; [| | |done].
  - by eapply Forall_sublist_of.
  - by eapply StronglySorted_sublist_of.
  - apply sublist_length in Hsub. lia.
Qed.

(** The run on the five entries: the duplicate of the newest is dropped
    after the four newest were kept, and three rows are left, newest
    first. *)
Lemma main_rows_global_top_sorted_witness :
  let out :=
    map (@normalize_entry toy_libs "TechCrunch")
      [ jan_entry "A" "https://x/a" 5; jan_entry "B" "https://x/b" 4;
        jan_entry "C" "https://x/c" 3 ] in
  value_of (@main_rows toy_libs nat (scripted (net_five 200)) "global_top" 0%nat)
  = inr out
  ∧ Forall (λ r, is_Some (published_dt r)) out
  ∧ StronglySorted not_older out
  ∧ length out ≤ TOTAL_GLOBAL_TOP
  ∧ TOTAL_GLOBAL_TOP = 4.
Proof.
  intros out.
  assert (E : value_of (@main_rows toy_libs nat (scripted (net_five 200))
                          "global_top" 0%nat) = inr out)
    by (vm_compute; reflexivity).
  exact (conj E (@main_rows_global_top_sorted toy_libs nat
                   (scripted (net_five 200)) 0%nat out E)).
Defined.

(** The sort raises only when two of the dates cannot be compared. *)
Lemma insert_desc_total (x : Row) (l : list Row) :
  (∀ b, b ∈ l → PyDate.key_lt (published_dt x) (published_dt b) ≠ None) →
  is_Some (insert_desc x l).
Proof.
  induction l as [|y l IH]; intros Hc; simpl; [done|].
  destruct (PyDate.key_lt (published_dt x) (published_dt y)) as [[|]|] eqn:E.
  - destruct IH as [s ->]; [|done].
    intros b Hb. apply Hc. by apply list_elem_of_further.
  - done.
  - destruct (Hc y); [apply list_elem_of_here|done].
Qed.

Lemma sort_desc_total (l : list Row) :
  (∀ a b, a ∈ l → b ∈ l →
          PyDate.key_lt (published_dt a) (published_dt b) ≠ None) →
  is_Some (sort_desc l).
Proof.
  induction l as [|x l IH]; intros Hc; simpl; [done|].
  destruct IH as [s Es].
  - intros a b Ha Hb. apply Hc; by apply list_elem_of_further.
  - rewrite Es. apply insert_desc_total. intros b Hb.
    apply Hc; [apply list_elem_of_here|].
    apply list_elem_of_further. by rewrite <- (sort_desc_perm _ _ Es).
Qed.

(** C7. If no row is left after [dedupe], [main] prints its diagnostic as
    the last line, returns without raising, and no file was written during
    the run. *)
Theorem main_no_rows_no_files `{Libs} `{World W} (mode : string) (w w' : W)
    (t : list event) :
  main_rows mode w = (t, w', inr []) →
  main mode w =
    (t ++ [EvPrint "No headlines fetched from any source. See debug output above."],
     w', inr tt)
  ∧ files_written (trace_of (main mode w)) = [].
Proof.
  intros E.
  assert (Em : main mode w =
    (t ++ [EvPrint "No headlines fetched from any source. See debug output above."],
     w', inr tt)).
  { unfold main. by rewrite (bind_run _ _ _ _ _ _ E). }
  split; [exact Em|]. rewrite Em.
  destruct (main_rows_run mode w) as (t1 & w1 & bs & _ & E1 & F1).
  rewrite E in E1. injection E1 as -> _ _.
  unfold trace_of. cbn [fst]. by rewrite files_written_app, F1.
Qed.

(** With the network down, either mode ends on the diagnostic. *)
Lemma main_no_rows_no_files_witness :
  let run := @main_rows toy_libs nat (scripted net_down) "per_source" 0%nat in
  run = (trace_of run, 5%nat, inr [])
  ∧ @main toy_libs nat (scripted net_down) "per_source" 0%nat =
    (trace_of run
     ++ [EvPrint "No headlines fetched from any source. See debug output above."],
     5%nat, inr tt)
  ∧ files_written
      (trace_of (@main toy_libs nat (scripted net_down) "per_source" 0%nat))
    = [].
Proof.
  intros run.
  assert (E : run = (trace_of run, 5%nat, inr [])) by (vm_compute; reflexivity).
  exact (conj E (@main_no_rows_no_files toy_libs nat (scripted net_down)
                   "per_source" 0%nat 5%nat (trace_of run) E)).
Defined.

(** ** What [main] writes when rows are left *)

(** [save] first writes the CSV file, one row of the frame per row and in
    the same order; when it returns, it has written the spreadsheet too. *)
Lemma save_run `{Libs} `{World W} (rows : list Row) (w : W) :
  ∃ df t' w' v,
    save rows w = (EvWrite CSV_OUT df :: t', w', v)
    ∧ map df_title (body df) = map title rows
    ∧ map df_link (body df) = map link rows
    ∧ (∀ d, v = inr d → d = df ∧ files_written t' = [XLSX_OUT]).
Proof.
  unfold save, bind, now, write_csv, write_excel, ret.
  destruct (now_isoformat w) as [s w2].
  match goal with
  | |- context [to_csv ?p ?d ?v] =>
      set (df := d); destruct (to_csv p df v) as [[e|[]] w3]
  end.
  - exists df, [], w3, (inl e). split_and!; [done| | |done];
      subst df; destruct rows; simpl; try done; by rewrite !map_map.
  - destruct (to_excel XLSX_OUT df w3) as [[e|[]] w4].
    + eexists df, _, w4, (inl e). split_and!; [done| | |done];
      subst df; destruct rows; simpl; try done; by rewrite !map_map.
    + eexists df, _, w4, (inr df). split_and!; [done| | |];
        [subst df; destruct rows; simpl; try done; by rewrite !map_map..|].
      by intros d [= <-].
Qed.

Lemma main_some_rows_writes `{Libs} `{World W} (mode : string) (w w1 : W)
    (t : list event) (r : Row) (rows : list Row) :
  main_rows mode w = (t, w1, inr (r :: rows)) →
  ∃ df t',
    trace_of (main mode w) = t ++ EvWrite CSV_OUT df :: t'
    ∧ map df_title (body df) = map title (r :: rows)
    ∧ map df_link (body df) = map link (r :: rows).
Proof.
  intros E. unfold main. rewrite (bind_run _ _ _ _ _ _ E).
  destruct (save_run (r :: rows) w1) as (df & t' & w' & v & Es & Ht & Hl & _).
  exists df. unfold bind at 1. rewrite Es.
  destruct v as [e|d].
  - by exists t'.
  - match goal with
    | |- context [let* _ := ?p in ?k] =>
        destruct ((let* _ := p in k) w') as [[t2 w2] r2]
    end.
    by eexists.
Qed.

(** ** [MODE] *)

Lemma MODE_values (argv : list string) :
  MODE argv = "per_source" ∨ MODE argv = "global_top".
Proof.
  unfold MODE. destruct argv as [|a0 [|a1 argv]]; [by left..|].
  case_bool_decide; [by right|by left].
Qed.

Example MODE_global : MODE ["news_scraper.py"; "GLOBAL"] = "global_top".
Proof. reflexivity. Qed.

Example MODE_default : MODE ["news_scraper.py"] = "per_source".
Proof. reflexivity. Qed.

Example MODE_other : MODE ["news_scraper.py"; "globals"] = "per_source".
Proof. reflexivity. Qed.

(** * Further properties *)

Lemma kept_keys (rows : list Row) (seen : gset string) :
  NoDup (map dedupe_key (kept rows seen))
  ∧ Forall (λ r, dedupe_key r ≠ "" ∧ dedupe_key r ∉ seen) (kept rows seen).
Proof.
  revert seen. induction rows as [|r rows IH]; intros seen; simpl.
  - split; constructor.
  - destruct (PyStr.truthy (dedupe_key r)) eqn:Et; simpl; [|apply IH].
    destruct (decide (dedupe_key r ∈ seen)) as [Hin|Hnin]; [apply IH|].
    destruct (IH ({[dedupe_key r]} ∪ seen)) as [Hnd Hall].
    assert (Hne : dedupe_key r ≠ "") by (intros E; by rewrite E in Et).
    split.
    + simpl. constructor; [|done]. intros Hin.
      apply list_elem_of_fmap in Hin as (r' & Hk & Hr').
      rewrite Forall_forall in Hall. destruct (Hall r' Hr') as [_ Hn].
      apply Hn. rewrite <- Hk. apply elem_of_union_l. by apply elem_of_singleton.
    + constructor; [done|]. eapply Forall_impl; [exact Hall|].
      intros r' [H1 H2]. split; [done|]. intros Hs. apply H2.
      by apply elem_of_union_r.
Qed.

Lemma kept_key_elem (rows : list Row) (seen : gset string) (k : string) :
  k ∈ map dedupe_key (kept rows seen) ↔
  k ≠ "" ∧ (k ∉ seen) ∧ k ∈ map dedupe_key rows.
Proof.
  revert seen. induction rows as [|r rows IH]; intros seen; simpl.
  - rewrite elem_of_nil. tauto.
  - rewrite elem_of_cons.
    destruct (PyStr.truthy (dedupe_key r)) eqn:Et; simpl.
    + assert (Hne : dedupe_key r ≠ "") by (intros E; by rewrite E in Et).
      destruct (decide (dedupe_key r ∈ seen)) as [Hin|Hnin].
      * rewrite IH. destruct (decide (k = dedupe_key r)) as [->|Hk]; tauto.
      * simpl. rewrite elem_of_cons, IH, elem_of_union, elem_of_singleton.
        destruct (decide (k = dedupe_key r)) as [->|Hk]; tauto.
    + apply truthy_false_iff in Et. rewrite IH, Et. intuition congruence.
Qed.

Lemma kept_all (rows : list Row) (seen : gset string) :
  NoDup (map dedupe_key rows) →
  Forall (λ r, dedupe_key r ≠ "" ∧ dedupe_key r ∉ seen) rows →
  kept rows seen = rows.
Proof.
  revert seen. induction rows as [|r rows IH]; intros seen Hnd Hall; [done|].
  simpl in *. apply NoDup_cons in Hnd as [Hr Hnd].
  apply Forall_cons in Hall as [[Hne Hns] Hall].
  destruct (PyStr.truthy (dedupe_key r)) eqn:Et; simpl.
  2:{ by apply truthy_false_iff in Et. }
  destruct (decide (dedupe_key r ∈ seen)); [done|]. f_equal.
  apply IH; [done|]. rewrite Forall_forall in Hall |- *.
  intros r' Hr'. destruct (Hall r' Hr') as [H1 H2]. split; [done|].
  rewrite elem_of_union, elem_of_singleton. intros [E|E]; [|done].
  apply Hr. rewrite <- E. by apply list_elem_of_fmap_2.
Qed.

Lemma kept_filter (rows : list Row) (S T : gset string) :
  kept rows (S ∪ T) = filter (λ r, dedupe_key r ∉ S) (kept rows T).
Proof.
  revert T. induction rows as [|r rows IH]; intros T; simpl; [done|].
  destruct (PyStr.truthy (dedupe_key r)) eqn:Et; simpl; [|apply IH].
  destruct (decide (dedupe_key r ∈ T)) as [HT|HT].
  - rewrite decide_True by (by apply elem_of_union_r). apply IH.
  - destruct (decide (dedupe_key r ∈ S)) as [HS|HS].
    + rewrite decide_True by (by apply elem_of_union_l).
      rewrite filter_cons_False by tauto. rewrite <- IH. f_equal.
      apply set_eq. intros x. rewrite !elem_of_union, elem_of_singleton.
      intuition (subst; auto).
    + rewrite decide_False by (rewrite elem_of_union; tauto).
      rewrite filter_cons_True by done. f_equal. rewrite <- IH. f_equal.
      apply set_eq. intros x. rewrite !elem_of_union, elem_of_singleton.
      tauto.
Qed.

Lemma filter_ext_Forall {A} (P Q : A → Prop) `{∀ x, Decision (P x)}
    `{∀ x, Decision (Q x)} (l : list A) :
  Forall (λ x, P x ↔ Q x) l → filter P l = filter Q l.
Proof.
  induction 1 as [|x l Hx _ IH]; [done|].
  rewrite !filter_cons, IH. destruct (decide (P x)), (decide (Q x)); tauto.
Qed.

(** X1. No two rows returned by [dedupe] have the same key, and none has
    an empty key. *)
Theorem dedupe_keys_distinct (rows : list Row) :
  NoDup (map dedupe_key (dedupe rows))
  ∧ Forall (λ r, dedupe_key r ≠ "") (dedupe rows).
Proof.
  rewrite dedupe_kept. destruct (kept_keys rows ∅) as [Hnd Hall].
  split; [done|]. eapply Forall_impl; [exact Hall|]. by intros r [? _].
Qed.

(** X2. [dedupe] loses no key: a string is the key of a row of the result
    exactly when it is non-empty and the key of a row of the input. *)
Theorem dedupe_keys_preserved (rows : list Row) (k : string) :
  k ∈ map dedupe_key (dedupe rows) ↔ k ≠ "" ∧ k ∈ map dedupe_key rows.
Proof.
  rewrite dedupe_kept, kept_key_elem. split; [tauto|].
  intros [? ?]. split_and!; [done| |done]. apply not_elem_of_empty.
Qed.

(** X3. [dedupe] returns its input unchanged exactly when the keys of the
    input are non-empty and pairwise distinct. *)
Theorem dedupe_fixed_point (rows : list Row) :
  dedupe rows = rows ↔
  NoDup (map dedupe_key rows) ∧ Forall (λ r, dedupe_key r ≠ "") rows.
Proof.
  rewrite dedupe_kept. split.
  - intros E. destruct (kept_keys rows ∅) as [Hnd Hall]. rewrite E in *.
    split; [done|]. eapply Forall_impl; [exact Hall|]. by intros r [? _].
  - intros [Hnd Hall]. apply kept_all; [done|].
    eapply Forall_impl; [exact Hall|]. intros r Hr. split; [done|].
    apply not_elem_of_empty.
Qed.

(** X4. [dedupe] of a concatenation: the rows kept from the first list are
    those [dedupe] keeps of it alone, followed by the rows [dedupe] keeps of
    the second list whose key does not occur in the first. Earlier rows
    are never displaced by later ones. *)
Theorem dedupe_app (l1 l2 : list Row) :
  dedupe (l1 ++ l2) =
  dedupe l1 ++ filter (λ r, dedupe_key r ∉ map dedupe_key l1) (dedupe l2).
Proof.
  rewrite !dedupe_kept, kept_app. f_equal.
  rewrite <- (right_id_L ∅ (∪) (seen_after l1 ∅)), kept_filter.
  apply filter_ext_Forall. destruct (kept_keys l2 ∅) as [_ Hall].
  eapply Forall_impl; [exact Hall|]. intros r [Hne _]. simpl.
  rewrite seen_after_spec. split.
  - intros Hn Hin. apply Hn. by right.
  - intros Hn [Hin|[_ Hin]]; [|done]. by apply not_elem_of_empty in Hin.
Qed.

Lemma try_feed_urls_cons `{Libs} `{World W} (url : string) (rest : list string)
    (n : nat) (name : string) (w : W) :
  try_feed_urls (url :: rest) n name w =
  match yield (request url w).1 with
  | [] =>
      (attempt_trace name url (request url w).1
       ++ trace_of (try_feed_urls rest n name (request url w).2),
       world_of (try_feed_urls rest n name (request url w).2),
       value_of (try_feed_urls rest n name (request url w).2))
  | es =>
      (attempt_trace name url (request url w).1, (request url w).2,
       inr (map (normalize_entry name) (take n es)))
  end.
Proof.
  cbn [try_feed_urls]. rewrite bind_print.
  rewrite (bind_run _ _ _ _ _ _ (fetch_feed_text_run url 15 w)).
  unfold request, yield, attempt_trace.
  destruct (requests_get url REQUEST_HEADERS 15 w) as [[[msg]|r] w1];
    cbn [fst snd fetched body_of]; rewrite bind_print;
    cbn [default from_option id].
  - cbn [negb PyStr.truthy]. rewrite bind_print. reflexivity.
  - destruct (PyStr.truthy (text r)) eqn:Et; cbn [negb].
    + rewrite bind_print. unfold parse_with_feedparser_from_text.
      set (p := feedparser_parse (text r)).
      destruct (bozo p).
      * rewrite bind_print. destruct (entries p) as [|e es] eqn:Ees.
        -- cbn [length Nat.eqb]. rewrite !bind_print. reflexivity.
        -- cbn [length Nat.eqb]. unfold ret.
           cbn [trace_of world_of value_of fst snd].
           by rewrite append_rows_map.
      * rewrite (bind_run _ _ _ [] w1 tt) by reflexivity.
        destruct (entries p) as [|e es] eqn:Ees.
        -- cbn [length Nat.eqb]. rewrite !bind_print. reflexivity.
        -- cbn [length Nat.eqb]. unfold ret.
           cbn [trace_of world_of value_of fst snd].
           by rewrite append_rows_map.
    + rewrite bind_print. reflexivity.
Qed.

Lemma requests_made_app (t1 t2 : list event) :
  requests_made (t1 ++ t2) = requests_made t1 ++ requests_made t2.
Proof. apply omap_app. Qed.


Lemma normalize_entry_key `{Libs} (name : string) (e : Entry) :
  dedupe_key (normalize_entry name e) = raw_key (normalize_entry name e).
Proof.
  rewrite dedupe_key_raw. unfold raw_key. simpl.
  destruct (PyStr.truthy (PyStr.strip (default "" (e_link e))));
    apply strip_idem.
Qed.

Lemma try_feed_urls_rows `{Libs} `{World W}
    (url_list : list string) (max_items : nat) (debug_name : string) (w : W) :
  ∃ rows,
    value_of (try_feed_urls url_list max_items debug_name w) = inr rows
    ∧ length rows ≤ max_items
    ∧ Forall (λ r, source r = debug_name
                   ∧ PyStr.trimmed (title r) ∧ PyStr.trimmed (link r)
                   ∧ dedupe_key r = raw_key r) rows.
Proof.
  revert w. induction url_list as [|url rest IH]; intros w.
  - exists []. split_and!; [done|simpl; lia|done].
  - rewrite try_feed_urls_cons. destruct (yield (request url w).1) as [|e es].
    + apply IH.
    + eexists. split_and!; [reflexivity| |].
      * rewrite length_map, length_take. lia.
      * apply Forall_forall. intros r Hr.
        apply list_elem_of_fmap in Hr as (e' & -> & _).
        split_and!; [done|apply strip_trimmed..|apply normalize_entry_key].
Qed.

(** X5. Every row [try_feed_urls] returns carries [debug_name] as its
    source, has a stripped title and a stripped link, and so has as its
    [dedupe] key the link if non-empty, else the title, as it stands. *)
Theorem try_feed_urls_rows_normalized `{Libs} `{World W}
    (url_list : list string) (max_items : nat) (debug_name : string) (w : W) :
  ∃ rows,
    value_of (try_feed_urls url_list max_items debug_name w) = inr rows
    ∧ Forall (λ r, source r = debug_name
                   ∧ PyStr.trimmed (title r) ∧ PyStr.trimmed (link r)
                   ∧ dedupe_key r = raw_key r) rows.
Proof.
  destruct (try_feed_urls_rows url_list max_items debug_name w)
    as (rows & E & _ & Hall).
  by exists rows.
Qed.

Lemma try_feed_urls_cap_aux `{Libs} `{World W} (url_list : list string)
    (m n : nat) (debug_name : string) (w : W) :
  m ≤ n →
  ∃ rows,
    value_of (try_feed_urls url_list n debug_name w) = inr rows
    ∧ value_of (try_feed_urls url_list m debug_name w) = inr (take m rows)
    ∧ trace_of (try_feed_urls url_list m debug_name w)
      = trace_of (try_feed_urls url_list n debug_name w)
    ∧ world_of (try_feed_urls url_list m debug_name w)
      = world_of (try_feed_urls url_list n debug_name w).
Proof.
  intros Hmn. revert w. induction url_list as [|url rest IH]; intros w.
  - exists []. by rewrite take_nil.
  - rewrite !try_feed_urls_cons.
    destruct (yield (request url w).1) as [|e es].
    + destruct (IH (request url w).2) as (rows & E1 & E2 & E3 & E4).
      exists rows. unfold value_of, trace_of, world_of in *. simpl.
      by rewrite E3.
    + eexists. split; [reflexivity|]. split_and!; [|done..].
      unfold value_of. simpl. f_equal.
      rewrite <- fmap_take, take_take. do 2 f_equal. lia.
Qed.

(** X6. A smaller [max_items] only truncates: with [m <= n], the rows
    returned under cap [m] are the first [m] of those returned under cap
    [n], and the trace and the world left are the same. *)
Theorem try_feed_urls_cap `{Libs} `{World W} (url_list : list string)
    (m n : nat) (debug_name : string) (w : W) :
  m ≤ n →
  ∃ rows,
    value_of (try_feed_urls url_list n debug_name w) = inr rows
    ∧ value_of (try_feed_urls url_list m debug_name w) = inr (take m rows)
    ∧ trace_of (try_feed_urls url_list m debug_name w)
      = trace_of (try_feed_urls url_list n debug_name w)
    ∧ world_of (try_feed_urls url_list m debug_name w)
      = world_of (try_feed_urls url_list n debug_name w).
Proof. apply try_feed_urls_cap_aux. Qed.



Lemma try_feed_urls_cap_witness :
  (4 ≤ 12)%nat
  ∧ ∃ rows,
    value_of (@try_feed_urls toy_libs nat (scripted (net_five 200))
                ["https://techcrunch.com/feed/"] 12 "TechCrunch" 0%nat) = inr rows
    ∧ value_of (@try_feed_urls toy_libs nat (scripted (net_five 200))
                  ["https://techcrunch.com/feed/"] 4 "TechCrunch" 0%nat)
      = inr (take 4 rows)
    ∧ trace_of (@try_feed_urls toy_libs nat (scripted (net_five 200))
                  ["https://techcrunch.com/feed/"] 4 "TechCrunch" 0%nat)
      = trace_of (@try_feed_urls toy_libs nat (scripted (net_five 200))
                    ["https://techcrunch.com/feed/"] 12 "TechCrunch" 0%nat)
    ∧ world_of (@try_feed_urls toy_libs nat (scripted (net_five 200))
                  ["https://techcrunch.com/feed/"] 4 "TechCrunch" 0%nat)
      = world_of (@try_feed_urls toy_libs nat (scripted (net_five 200))
                    ["https://techcrunch.com/feed/"] 12 "TechCrunch" 0%nat).
Proof.
  assert (Hle : (4 ≤ 12)%nat) by lia.
  exact (conj Hle (@try_feed_urls_cap toy_libs nat (scripted (net_five 200))
                     ["https://techcrunch.com/feed/"] 4 12 "TechCrunch" 0%nat
                     Hle)).
Defined.

Lemma length_take_le (n : nat) (s : string) :
  String.length (PyStr.take n s) ≤ n.
Proof.
  unfold PyStr.take. revert s. induction n as [|n IH]; intros [|c s]; simpl;
    try lia. specialize (IH s). lia.
Qed.

Lemma length_map_chars (f : ascii → ascii) (s : string) :
  String.length (PyStr.map_chars f s) = String.length s.
Proof. induction s as [|c s IH]; simpl; [done|]. by rewrite IH. Qed.

Lemma newlines_to_spaces_clean (s : string) :
  Forall (λ c, c ≠ PyStr.newline)
    (String.list_ascii_of_string (PyStr.newlines_to_spaces s)).
Proof.
  unfold PyStr.newlines_to_spaces.
  induction s as [|c s IH]; simpl; constructor; [|done].
  destruct (Ascii.eqb c PyStr.newline) eqn:E; [done|].
  by apply Ascii.eqb_neq.
Qed.

(** X8. When a URL answers with a non-empty body in which the parser
    finds no entry, the line printed after the snippet heading is the
    stripped body cut to 800 characters with newlines replaced by spaces:
    it has at most 800 characters and no newline; the loop then goes on
    with the next URL. *)
Theorem try_feed_urls_snippet `{Libs} `{World W} (url : string)
    (rest : list string) (max_items : nat) (debug_name : string) (w w1 : W)
    (r : Response) :
  request url w = (inr r, w1) →
  text r ≠ "" →
  entries (feedparser_parse (text r)) = [] →
  ∃ t0 s,
    trace_of (try_feed_urls (url :: rest) max_items debug_name w)
    = t0 ++ EvPrint " Snippet of response (first 800 chars):" :: EvPrint s
         :: trace_of (try_feed_urls rest max_items debug_name w1)
    ∧ s = PyStr.newlines_to_spaces (PyStr.take 800 (PyStr.strip (text r)))
    ∧ String.length s ≤ 800
    ∧ Forall (λ c, c ≠ PyStr.newline) (String.list_ascii_of_string s).
Proof.
  intros Hreq Ht He. rewrite try_feed_urls_cons. unfold yield, attempt_trace.
  rewrite Hreq. cbn [fst snd fetched body_of default from_option id].
  destruct (PyStr.truthy (text r)) eqn:Et.
  2:{ by apply truthy_false_iff in Et. }
  rewrite He. unfold trace_of. cbn [fst].
  exists (firstn (if bozo (feedparser_parse (text r)) then 5 else 4)
            (attempt_trace debug_name url (inr r))), (snippet_of (text r)).
  split_and!.
  - unfold attempt_trace. cbn [fetched default from_option id].
    rewrite Et, He. by destruct (bozo (feedparser_parse (text r))).
  - reflexivity.
  - unfold snippet_of, PyStr.newlines_to_spaces. rewrite length_map_chars.
    apply length_take_le.
  - apply newlines_to_spaces_clean.
Qed.


Lemma print_top_run {W} (i : nat) (rows : list DfRow) (w : W) :
  print_top i rows w = (top_lines i rows, w, inr tt).
Proof.
  revert i. induction rows as [|row rows IH]; intros i; [done|].
  cbn [print_top top_lines]. by rewrite bind_print, IH.
Qed.

Lemma top_lines_prints (i : nat) (rows : list DfRow) :
  length (top_lines i rows) = length rows
  ∧ Forall is_print (top_lines i rows).
Proof.
  revert i. induction rows as [|row rows IH]; intros i; simpl.
  - split; [done|constructor].
  - destruct (IH (S i)) as [-> ?]. split; [done|]. by constructor.
Qed.

Lemma bind_fail {W A B} (m : M W A) (k : A → M W B) (w : W)
    (t1 : list event) (w1 : W) (e : exn) :
  m w = (t1, w1, inl e) → bind m k w = (t1, w1, inl e).
Proof. intros E. unfold bind. by rewrite E. Qed.

(** [main] after [main_rows], case by case. *)
Lemma main_cases `{Libs} `{World W} (mode : string) (w : W) :
  let '(t, w1, v) := main_rows mode w in
  match v with
  | inl e => main mode w = (t, w1, inl e)
  | inr [] =>
      main mode w =
      (t ++ [EvPrint "No headlines fetched from any source. See debug output above."],
       w1, inr tt)
  | inr rows =>
      let '(ts, w2, vs) := save rows w1 in
      match vs with
      | inl e => main mode w = (t ++ ts, w2, inl e)
      | inr df =>
          main mode w =
          (t ++ ts ++ [EvPrint (saved_line (length (body df)));
                       EvPrint (nl +:+ "=== Top 2 Headlines (formatted summary) ===")]
             ++ top_lines 1 (take 2 (body df)),
           w2, inr tt)
      end
  end.
Proof.
  destruct (main_rows mode w) as [[t w1] [e|[|r rows]]] eqn:E.
  - unfold main. by rewrite (bind_fail _ _ _ _ _ _ E).
  - unfold main. by rewrite (bind_run _ _ _ _ _ _ E).
  - destruct (save (r :: rows) w1) as [[ts w2] [e|df]] eqn:Es.
    + unfold main. rewrite (bind_run _ _ _ _ _ _ E).
      by rewrite (bind_fail _ _ _ _ _ _ Es).
    + unfold main. rewrite (bind_run _ _ _ _ _ _ E).
      rewrite (bind_run _ _ _ _ _ _ Es), !bind_print, print_top_run.
      reflexivity.
Qed.


Lemma files_written_writes (t : list event) :
  files_written t = map fst (writes_made t).
Proof.
  induction t as [|[line|url h z|path df] t IH]; simpl; try done.
  unfold files_written, writes_made in *. simpl. by rewrite IH.
Qed.

Lemma no_files_no_writes (t : list event) :
  files_written t = [] → writes_made t = [].
Proof.
  rewrite files_written_writes. by destruct (writes_made t).
Qed.



Lemma main_rows_trace `{Libs} `{World W} (mode : string) (w : W) :
  trace_of (main_rows mode w)
  = EvPrint ("Mode: " +:+ mode)
      :: trace_of (fetch_sources FEEDS (cap_of mode) [] w).
Proof.
  destruct (fetch_sources_batches FEEDS (cap_of mode) [] w)
    as (t & w' & bs & Hb & E & F).
  unfold main_rows, cap_of in *. rewrite bind_print.
  destruct (String.eqb mode "per_source").
  - rewrite (bind_run _ _ _ _ _ _ E), E.
    cbn [ret trace_of world_of value_of fst snd]. by rewrite app_nil_r.
  - rewrite bind_bind, (bind_run _ _ _ _ _ _ E), E.
    unfold sort_by_published_dt_reverse. cbv beta.
    destruct (sort_desc (List.filter has_published_dt ([] ++ concat bs))).
    + rewrite bind_bind, !bind_ret_l.
      cbn [ret trace_of world_of value_of fst snd]. by rewrite app_nil_r.
    + rewrite bind_bind, bind_raise.
      cbn [trace_of world_of value_of fst snd]. by rewrite app_nil_r.
Qed.



Lemma save_succeeds `{Libs} `{World W} (rows : list Row) (w : W) :
  writes_succeed →
  ∃ df w',
    save rows w = ([EvWrite CSV_OUT df; EvWrite XLSX_OUT df], w', inr df)
    ∧ map df_title (body df) = map title rows
    ∧ map df_link (body df) = map link rows.
Proof.
  intros Hok. unfold save, bind, now, write_csv, write_excel, ret.
  destruct (now_isoformat w) as [s w2].
  match goal with
  | |- context [to_csv ?p ?d ?v] => set (df := d)
  end.
  exists df.
  destruct (Hok CSV_OUT df w2) as [Hc _].
  destruct (to_csv CSV_OUT df w2) as [[e|[]] w3]; [done|].
  destruct (Hok XLSX_OUT df w3) as [_ Hx].
  destruct (to_excel XLSX_OUT df w3) as [[e|[]] w4]; [done|].
  exists w4. split; [done|]. subst df.
  destruct rows; [done|]. cbn [body]. by rewrite !map_map.
Qed.

Lemma main_success `{Libs} `{World W} (mode : string) (w w1 : W)
    (t : list event) (r : Row) (rows : list Row) :
  main_rows mode w = (t, w1, inr (r :: rows)) →
  writes_succeed →
  ∃ df w2 blocks,
    main mode w =
      (t ++ [EvWrite CSV_OUT df; EvWrite XLSX_OUT df;
             EvPrint (saved_line (length (r :: rows)));
             EvPrint top2_header] ++ blocks,
       w2, inr tt)
    ∧ map df_title (body df) = map title (r :: rows)
    ∧ map df_link (body df) = map link (r :: rows)
    ∧ length blocks = 2 `min` length (r :: rows)
    ∧ Forall is_print blocks.
Proof.
  intros E Hok. pose proof (main_cases mode w) as Hc. rewrite E in Hc.
  destruct (save_succeeds (r :: rows) w1 Hok) as (df & w2 & Es & Ht & Hl).
  rewrite Es in Hc. exists df, w2, (top_lines 1 (take 2 (body df))).
  assert (Hlen : length (body df) = length (r :: rows))
    by (by rewrite <- (length_map df_title), Ht, length_map).
  destruct (top_lines_prints 1 (take 2 (body df))) as [Hn Hp].
  split_and!; [|done|done| |done].
  - rewrite Hc, Hlen. reflexivity.
  - by rewrite Hn, length_take, Hlen.
Qed.




(** X12. When rows are left and the writes succeed, [main] writes the CSV
    file and the spreadsheet with one row per row left, in order, then
    prints the number of rows saved, the heading of the summary and one
    block for each of the first two rows, and returns. *)
Theorem main_saves_and_prints `{Libs} `{World W} (mode : string) (w w1 : W)
    (t : list event) (r : Row) (rows : list Row) :
  main_rows mode w = (t, w1, inr (r :: rows)) →
  writes_succeed →
  ∃ df w2 blocks,
    main mode w =
      (t ++ [EvWrite CSV_OUT df; EvWrite XLSX_OUT df;
             EvPrint (saved_line (length (r :: rows)));
             EvPrint top2_header] ++ blocks,
       w2, inr tt)
    ∧ map df_title (body df) = map title (r :: rows)
    ∧ map df_link (body df) = map link (r :: rows)
    ∧ length blocks = 2 `min` length (r :: rows)
    ∧ Forall is_print blocks.
Proof. apply main_success. Qed.

(** X13. When the writes succeed, [main] returns, or it raises the error
    of the sort, which can happen outside per-source mode only. *)
Theorem main_raises_only_sort_error `{Libs} `{World W} (mode : string) (w : W) :
  writes_succeed →
  value_of (main mode w) = inr tt
  ∨ (value_of (main mode w) = inl sort_error ∧ mode ≠ "per_source").
Proof.
  intros Hok. pose proof (main_cases mode w) as Hc.
  destruct (main_rows_run mode w) as (t & w' & bs & _ & E & _).
  destruct (rows_of mode (concat bs)) as [e|[|r rows]] eqn:Er;
    rewrite E in Hc.
  - right. rewrite Hc. unfold rows_of, dedupe_after_select, global_top in Er.
    destruct (String.eqb mode "per_source") eqn:Em; [done|].
    destruct (sort_desc _); [done|]. injection Er as <-.
    split; [done|]. intros ->. done.
  - left. by rewrite Hc.
  - left. destruct (main_success mode w w' t r rows E Hok)
      as (df & w2 & blocks & -> & _). done.
Qed.

Lemma run_eta {W A} (r : list event * W * (exn + A)) :
  r = (trace_of r, world_of r, value_of r).
Proof. by destruct r as [[t w] v]. Qed.

Lemma batches_functional `{Libs} `{World W} (n : nat)
    (feeds : list (string * list string)) (w w1 w2 : W)
    (bs1 bs2 : list (list Row)) :
  batches n feeds w bs1 w1 → batches n feeds w bs2 w2 → bs1 = bs2 ∧ w1 = w2.
Proof.
  intros Hb. revert bs2 w2.
  induction Hb as [w|name urls feeds w wa wb t rows bs E Hb IH];
    intros bs2 w2 Hb2; inversion Hb2; subst; [done|].
  match goal with
  | E2 : try_feed_urls urls n name w = _ |- _ =>
      rewrite E in E2; injection E2 as <- <- <-
  end.
  match goal with
  | Hb3 : batches n feeds wa _ _ |- _ => destruct (IH _ _ Hb3) as [-> ->]
  end.
  done.
Qed.

Lemma batches_rows `{Libs} `{World W} (n : nat)
    (feeds : list (string * list string)) (w w' : W) (bs : list (list Row)) :
  batches n feeds w bs w' →
  Forall2 (λ feed b, length b ≤ n ∧ Forall (λ r, source r = feed.1) b)
    feeds bs.
Proof.
  induction 1 as [w|name urls feeds w wa wb t rows bs E Hb IH];
    constructor; [|done].
  destruct (try_feed_urls_rows urls n name w) as (rows' & E' & Hlen & Hall).
  rewrite E in E'. injection E' as <-. split; [done|].
  eapply Forall_impl; [exact Hall|]. by intros r [? _].
Qed.

Lemma filter_source_nil (name : string) (l : list Row) :
  Forall (λ r, source r ≠ name) l → filter (λ r, source r = name) l = [].
Proof.
  induction 1 as [|r l Hr _ IH]; [done|].
  by rewrite filter_cons_False.
Qed.

Lemma batch_sources (n : nat) (feeds : list (string * list string))
    (bs : list (list Row)) :
  Forall2 (λ feed b, length b ≤ n ∧ Forall (λ r, source r = feed.1) b)
    feeds bs →
  Forall (λ r, source r ∈ map fst feeds) (concat bs).
Proof.
  induction 1 as [|feed b feeds bs [_ Hb] _ IH]; simpl; [constructor|].
  apply Forall_app. split.
  - eapply Forall_impl; [exact Hb|]. intros r ->. apply list_elem_of_here.
  - eapply Forall_impl; [exact IH|]. intros r Hr.
    by apply list_elem_of_further.
Qed.

Lemma batch_source_count (n : nat) (feeds : list (string * list string))
    (bs : list (list Row)) (name : string) :
  NoDup (map fst feeds) →
  Forall2 (λ feed b, length b ≤ n ∧ Forall (λ r, source r = feed.1) b)
    feeds bs →
  length (filter (λ r, source r = name) (concat bs)) ≤ n.
Proof.
  intros Hnd Hall. induction Hall as [|feed b feeds bs [Hlen Hb] Hall IH];
    simpl; [lia|].
  apply NoDup_cons in Hnd as [Hfresh Hnd]. rewrite filter_app, length_app.
  destruct (decide (name = feed.1)) as [->|Hne].
  - rewrite (filter_source_nil _ (concat bs)).
    + pose proof (length_filter (λ r, source r = feed.1) b). simpl. lia.
    + eapply Forall_impl; [exact (batch_sources _ _ _ Hall)|].
      intros r Hr E. apply Hfresh. by rewrite <- E.
  - rewrite (filter_source_nil _ b).
    + simpl. by apply IH.
    + eapply Forall_impl; [exact Hb|]. intros r -> E. by apply Hne.
Qed.

Lemma batch_total (n : nat) (feeds : list (string * list string))
    (bs : list (list Row)) :
  Forall2 (λ feed b, length b ≤ n ∧ Forall (λ r, source r = feed.1) b)
    feeds bs →
  length (concat bs) ≤ n * length feeds.
Proof.
  induction 1 as [|feed b feeds bs [Hlen _] _ IH]; simpl; [lia|].
  rewrite length_app, Nat.mul_succ_r. lia.
Qed.

Lemma sublist_filter_mono {A} (P : A → Prop) `{∀ x, Decision (P x)}
    (l1 l2 : list A) :
  l1 `sublist_of` l2 → filter P l1 `sublist_of` filter P l2.
Proof.
  induction 1 as [|x l1 l2 _ IH|x l1 l2 _ IH]; [done| |];
    rewrite ?filter_cons; repeat case_decide;
    try (by apply sublist_skip); try (by apply sublist_cons); done.
Qed.

(** X16. A per-source run always returns rows: at most
    [HEADLINES_PER_SOURCE] for each source, at most that many times the
    number of sources in all, each with a source name of [FEEDS]. *)
Theorem main_rows_per_source_bounds `{Libs} `{World W} (w : W) :
  ∃ out,
    value_of (main_rows "per_source" w) = inr out
    ∧ length out ≤ HEADLINES_PER_SOURCE * length FEEDS
    ∧ (∀ name, length (filter (λ r, source r = name) out)
               ≤ HEADLINES_PER_SOURCE)
    ∧ Forall (λ r, source r ∈ map fst FEEDS) out.
Proof.
  destruct (main_rows_run "per_source" w) as (t & w' & bs & Hb & E & _).
  change (cap_of "per_source") with HEADLINES_PER_SOURCE in Hb.
  change (rows_of "per_source" (concat bs)) with
    (inr (dedupe (concat bs)) : exn + list Row) in E.
  exists (dedupe (concat bs)). rewrite E.
  assert (Hsub : dedupe (concat bs) `sublist_of` concat bs)
    by (rewrite dedupe_kept; apply kept_sublist).
  pose proof (batches_rows _ _ _ _ _ Hb) as Hall.
  split_and!; [done| | |].
  - apply sublist_length in Hsub.
    pose proof (batch_total _ _ _ Hall). lia.
  - intros name.
    pose proof (sublist_length _ _
      (sublist_filter_mono (λ r, source r = name) _ _ Hsub)).
    assert (Hnd : NoDup (map fst FEEDS)).
    { apply (bool_decide_unpack (NoDup (map fst FEEDS))). by vm_compute. }
    pose proof (batch_source_count _ _ _ name Hnd Hall). lia.
  - eapply Forall_sublist_of; [exact Hsub|]. by eapply batch_sources.
Qed.

Lemma key_lt_None_iff (x y : datetime) :
  PyDate.key_lt (Some x) (Some y) = None ↔
  (dt_utcoffset x = None ∧ is_Some (dt_utcoffset y))
  ∨ (is_Some (dt_utcoffset x) ∧ dt_utcoffset y = None).
Proof.
  unfold PyDate.key_lt, PyDate.lt.
  destruct (dt_utcoffset x) as [ox|], (dt_utcoffset y) as [oy|].
  - split; [done|]. by intros [[? _]|[_ ?]].
  - split; [|done]. intros _. right. split; [by eexists|done].
  - split; [|done]. intros _. left. split; [done|by eexists].
  - split; [done|]. intros [[_ Hs]|[Hs _]]; by destruct Hs.
Qed.

Lemma insert_desc_None (x : Row) (l : list Row) :
  insert_desc x l = None →
  ∃ y, y ∈ l ∧ PyDate.key_lt (published_dt x) (published_dt y) = None.
Proof.
  induction l as [|y l IH]; simpl; [done|].
  destruct (PyDate.key_lt (published_dt x) (published_dt y)) as [[|]|] eqn:E.
  - destruct (insert_desc x l); [done|]. intros _.
    destruct IH as (z & Hz & Ez); [done|]. exists z.
    split; [by apply list_elem_of_further|done].
  - done.
  - intros _. exists y. split; [apply list_elem_of_here|done].
Qed.

Lemma sort_desc_None (l : list Row) :
  sort_desc l = None →
  ∃ a b, a ∈ l ∧ b ∈ l
         ∧ PyDate.key_lt (published_dt a) (published_dt b) = None.
Proof.
  induction l as [|x l IH]; simpl; [done|].
  destruct (sort_desc l) as [s|] eqn:Es.
  - intros Hi. apply insert_desc_None in Hi as (y & Hy & E).
    exists x, y. split_and!; [apply list_elem_of_here| |done].
    apply list_elem_of_further. by rewrite <- (sort_desc_perm _ _ Es).
  - intros _. destruct IH as (a & b & Ha & Hb & E); [done|].
    exists a, b. split_and!; [by apply list_elem_of_further..|done].
Qed.

Lemma sorted_comparable (s : list Row) (a b : Row) :
  StronglySorted not_older s → a ∈ s → b ∈ s →
  is_Some (published_dt a) → is_Some (published_dt b) →
  PyDate.key_lt (published_dt a) (published_dt b) ≠ None.
Proof.
  intros Hs Ha Hb [x Ex] [y Ey]. rewrite Ex, Ey.
  assert (Hcases : a = b ∨ not_older a b ∨ not_older b a).
  { clear Ex Ey. induction Hs as [|z s Hs IH Hz]; [by apply elem_of_nil in Ha|].
    rewrite Forall_forall in Hz.
    apply elem_of_cons in Ha as [->|Ha], Hb as [->|Hb]; auto. }
  rewrite key_lt_None_iff.
  destruct Hcases as [->|[Hc|Hc]].
  - rewrite Ex in Ey. injection Ey as <-.
    destruct (dt_utcoffset x); intros [[? [? ?]]|[[? ?] ?]]; done.
  - unfold not_older in Hc. rewrite Ex, Ey in Hc.
    intros Hn. apply key_lt_None_iff in Hn. by rewrite Hn in Hc.
  - unfold not_older in Hc. rewrite Ex, Ey in Hc.
    intros Hn. assert (Hn' : PyDate.key_lt (Some y) (Some x) = None)
      by (apply key_lt_None_iff; tauto).
    by rewrite Hn' in Hc.
Qed.

Lemma global_top_raises_iff (rows : list Row) :
  global_top rows = inl sort_error ↔ mixed_dates rows.
Proof.
  unfold global_top, mixed_dates.
  destruct (sort_desc (List.filter has_published_dt rows)) as [s|] eqn:Es.
  - split; [done|]. intros (a & b & x & y & Ha & Hb & Ex & Ey & Hx & Hy).
    exfalso.
    assert (Hin : ∀ r d, r ∈ rows → published_dt r = Some d → r ∈ s).
    { intros r d Hr Hd. rewrite (sort_desc_perm _ _ Es).
      apply list_elem_of_In, filter_In. split; [by apply list_elem_of_In|].
      unfold has_published_dt. by rewrite Hd. }
    apply (sorted_comparable s a b); eauto using sort_desc_sorted.
    rewrite Ex, Ey. apply key_lt_None_iff. by left.
  - split; [|done]. intros _.
    apply sort_desc_None in Es as (a & b & Ha & Hb & E).
    apply list_elem_of_In, filter_In in Ha as [Ha Hda].
    apply list_elem_of_In, filter_In in Hb as [Hb Hdb].
    apply list_elem_of_In in Ha, Hb. unfold has_published_dt in *.
    destruct (published_dt a) as [x|] eqn:Ex; [|done].
    destruct (published_dt b) as [y|] eqn:Ey; [|done].
    apply key_lt_None_iff in E as [[Hx Hy]|[Hx Hy]].
    + by exists a, b, x, y.
    + by exists b, a, y, x.
Qed.

(** X14. In global-top mode the sort raises, and [main] with it before
    any file is written, exactly when the rows fetched contain a row with a
    naive date and a row with an aware date. *)
Theorem main_global_top_raises `{Libs} `{World W} (w w' : W)
    (bs : list (list Row)) :
  batches MAX_PER_SOURCE_FOR_GLOBAL FEEDS w bs w' →
  (mixed_dates (concat bs)
   ↔ value_of (main_rows "global_top" w) = inl sort_error)
  ∧ (mixed_dates (concat bs) →
     value_of (main "global_top" w) = inl sort_error
     ∧ writes_made (trace_of (main "global_top" w)) = []).
Proof.
  intros Hb.
  destruct (main_rows_run "global_top" w) as (t & w1 & bs1 & Hb1 & E & F).
  change (cap_of "global_top") with MAX_PER_SOURCE_FOR_GLOBAL in Hb1.
  destruct (batches_functional _ _ _ _ _ _ _ Hb Hb1) as [<- <-].
  change (rows_of "global_top" (concat bs)) with
    (dedupe_after_select (concat bs)) in E.
  assert (Hiff : mixed_dates (concat bs)
                 ↔ value_of (main_rows "global_top" w) = inl sort_error).
  { rewrite E, <- global_top_raises_iff. unfold value_of, dedupe_after_select.
    simpl. destruct (global_top (concat bs)) as [e|rows]; split; try done;
      congruence. }
  split; [exact Hiff|]. intros Hm. apply Hiff in Hm.
  pose proof (main_cases "global_top" w) as Hc. rewrite E in *.
  unfold value_of in Hm. simpl in Hm. rewrite Hm in Hc. rewrite Hc.
  unfold value_of, trace_of. simpl. split; [done|].
  by apply no_files_no_writes.
Qed.

(** X17. In global-top mode the rows kept before [dedupe] are the
    newest: they are [TOTAL_GLOBAL_TOP] of the dated rows fetched (all of
    them if there are fewer), newest first, and no dated row left out is
    newer than a row kept. *)
Theorem main_global_top_selects_newest `{Libs} `{World W} (w w' : W)
    (bs : list (list Row)) (out : list Row) :
  batches MAX_PER_SOURCE_FOR_GLOBAL FEEDS w bs w' →
  value_of (main_rows "global_top" w) = inr out →
  ∃ top rest,
    List.filter has_published_dt (concat bs) ≡ₚ top ++ rest
    ∧ length top = TOTAL_GLOBAL_TOP `min` length (top ++ rest)
    ∧ StronglySorted not_older top
    ∧ (∀ a b, a ∈ top → b ∈ rest → not_older a b)
    ∧ out = dedupe top.
Proof.
  intros Hb.
  destruct (main_rows_run "global_top" w) as (t & w1 & bs1 & Hb1 & E & F).
  change (cap_of "global_top") with MAX_PER_SOURCE_FOR_GLOBAL in Hb1.
  destruct (batches_functional _ _ _ _ _ _ _ Hb Hb1) as [<- <-].
  rewrite E. unfold value_of, rows_of, dedupe_after_select, global_top. simpl.
  destruct (sort_desc (List.filter has_published_dt (concat bs)))
    as [s|] eqn:Es; [|done].
  intros [= <-].
  exists (take TOTAL_GLOBAL_TOP s), (drop TOTAL_GLOBAL_TOP s).
  pose proof (sort_desc_sorted _ _ Es) as Hs.
  rewrite <- (take_drop TOTAL_GLOBAL_TOP s) in Hs at 1.
  split_and!.
  - by rewrite take_drop, (sort_desc_perm _ _ Es).
  - by rewrite take_drop, length_take.
  - by eapply StronglySorted_app_1_l.
  - intros a b Ha Hb'. by eapply StronglySorted_app_1_elem_of.
  - done.
Qed.

Lemma requests_made_print (line : string) (t : list event) :
  requests_made (EvPrint line :: t) = requests_made t.
Proof. reflexivity. Qed.

Lemma fetch_sources_cap `{Libs} `{World W} (m n : nat)
    (feeds : list (string * list string)) (w w' : W) (bs : list (list Row)) :
  m ≤ n →
  batches n feeds w bs w' →
  ∀ acc acc',
    value_of (fetch_sources feeds m acc w)
    = inr (acc ++ concat (map (take m) bs))
    ∧ requests_made (trace_of (fetch_sources feeds m acc w))
      = requests_made (trace_of (fetch_sources feeds n acc' w))
    ∧ world_of (fetch_sources feeds m acc w) = w'
    ∧ world_of (fetch_sources feeds n acc' w) = w'.
Proof.
  intros Hmn Hb.
  induction Hb as [w|name urls feeds w wa wb t rows bs E Hb IH];
    intros acc acc'.
  - simpl. by rewrite app_nil_r.
  - destruct (try_feed_urls_cap_aux urls m n name w Hmn)
      as (rows0 & E1 & E2 & E3 & E4).
    assert (Em : try_feed_urls urls m name w = (t, wa, inr (take m rows))).
    { rewrite E in E1, E3, E4.
      destruct (try_feed_urls urls m name w) as [[tm wm] vm].
      unfold value_of, trace_of, world_of in *. simpl in *. congruence. }
    clear E1 E2 E3 E4.
    cbn [fetch_sources].
    rewrite (bind_run _ _ _ _ _ _ E), (bind_run _ _ _ _ _ _ Em), !bind_print.
    destruct (IH (acc ++ take m rows) (acc' ++ rows)) as (I1 & I2 & I3 & I4).
    unfold value_of, trace_of, world_of in *. cbn [fst snd map concat].
    rewrite !requests_made_app, !requests_made_print, I1, I2, I3, I4.
    by rewrite app_assoc.
Qed.

(** X15. The two modes fetch alike: a per-source run makes the requests
    of a global-top run, and its result is [dedupe] of the global run's
    batches, each cut to its first [HEADLINES_PER_SOURCE] rows. *)
Theorem main_rows_modes_fetch_alike `{Libs} `{World W} (w w' : W)
    (bs : list (list Row)) :
  batches MAX_PER_SOURCE_FOR_GLOBAL FEEDS w bs w' →
  value_of (main_rows "per_source" w)
  = inr (dedupe (concat (map (take HEADLINES_PER_SOURCE) bs)))
  ∧ requests_made (trace_of (main_rows "per_source" w))
    = requests_made (trace_of (main_rows "global_top" w)).
Proof.
  intros Hb.
  assert (Hle : HEADLINES_PER_SOURCE ≤ MAX_PER_SOURCE_FOR_GLOBAL)
    by (unfold HEADLINES_PER_SOURCE, MAX_PER_SOURCE_FOR_GLOBAL; lia).
  destruct (fetch_sources_cap _ _ _ _ _ _ Hle Hb [] []) as (Hv & Hr & _ & _).
  split.
  - destruct (main_rows_run "per_source" w) as (t & w1 & bs1 & Hb1 & E & _).
    destruct (fetch_sources_batches FEEDS HEADLINES_PER_SOURCE [] w)
      as (t2 & w2 & bs2 & Hb2 & E2 & _).
    change (cap_of "per_source") with HEADLINES_PER_SOURCE in Hb1.
    destruct (batches_functional _ _ _ _ _ _ _ Hb1 Hb2) as [-> ->].
    rewrite E2 in Hv. unfold value_of in Hv. cbn [snd] in Hv.
    injection Hv as Hv. simpl in Hv.
    rewrite E. unfold value_of, rows_of. simpl. by rewrite Hv.
  - rewrite !main_rows_trace, !requests_made_print. exact Hr.
Qed.

Lemma lower_char_idem (c : ascii) :
  PyStr.lower_char (PyStr.lower_char c) = PyStr.lower_char c.
Proof. by destruct c as [[] [] [] [] [] [] [] []]. Qed.

Lemma lower_idem (s : string) : PyStr.lower (PyStr.lower s) = PyStr.lower s.
Proof.
  unfold PyStr.lower. induction s as [|c s IH]; simpl; [done|].
  by rewrite lower_char_idem, IH.
Qed.

(** X21. [MODE] is [global_top] exactly when there is a first argument
    that reads [global] or [global_top] in lower case, and [per_source]
    otherwise; the case of the argument and any further arguments do not
    matter. *)
Theorem MODE_case_insensitive (argv : list string) (prog a : string)
    (rest : list string) :
  (MODE argv = "global_top" ↔
   ∃ p b r, argv = p :: b :: r
            ∧ (PyStr.lower b = "global" ∨ PyStr.lower b = "global_top"))
  ∧ (MODE argv = "per_source" ∨ MODE argv = "global_top")
  ∧ MODE (prog :: PyStr.lower a :: rest) = MODE (prog :: a :: rest).
Proof.
  split_and!.
  - unfold MODE. destruct argv as [|p [|b r]].
    + split; [done|]. by intros (? & ? & ? & ? & _).
    + split; [done|]. by intros (? & ? & ? & ? & _).
    + case_bool_decide as Hd.
      * split; [|done]. intros _. exists p, b, r. split; [done|].
        apply elem_of_cons in Hd as [->|Hd]; [by left|].
        apply elem_of_cons in Hd as [->|Hd]; [by right|].
        by apply elem_of_nil in Hd.
      * split; [done|]. intros (p' & b' & r' & Heq & Hl).
        injection Heq as -> -> ->. exfalso. apply Hd. destruct Hl as [-> | ->].
        -- apply list_elem_of_here.
        -- apply list_elem_of_further, list_elem_of_here.
  - unfold MODE. destruct argv as [|p [|b r]]; [by left..|].
    case_bool_decide; [by right|by left].
  - unfold MODE. by rewrite lower_idem.
Qed.

Lemma world_five_writes : @writes_succeed nat world_five.
Proof. intros path df w. by split. Qed.

Lemma batches_five_run :
  @batches toy_libs nat world_five MAX_PER_SOURCE_FOR_GLOBAL FEEDS 0%nat
    batches_five 5%nat.
Proof.
  eapply batches_cons; [vm_compute; reflexivity|].
  eapply batches_cons; [vm_compute; reflexivity|].
  apply batches_nil.
Qed.

Lemma try_feed_urls_snippet_witness :
  let url := "https://economictimes.indiatimes.com/rssfeedsdefault.cms" in
  let r := {| status_code := 200; text := "<html>not a feed</html>";
              content_type := Some "application/rss+xml" |} in
  @request nat world_five url 0%nat = (inr r, 1%nat)
  ∧ text r ≠ ""
  ∧ entries (@feedparser_parse toy_libs (text r)) = []
  ∧ ∃ t0 s,
      trace_of (@try_feed_urls toy_libs nat world_five [url] 4 "ET" 0%nat)
      = t0 ++ EvPrint " Snippet of response (first 800 chars):" :: EvPrint s
           :: trace_of (@try_feed_urls toy_libs nat world_five [] 4 "ET" 1%nat)
      ∧ s = PyStr.newlines_to_spaces (PyStr.take 800 (PyStr.strip (text r)))
      ∧ String.length s ≤ 800
      ∧ Forall (λ c, c ≠ PyStr.newline) (String.list_ascii_of_string s).
Proof.
  intros url r.
  assert (H1 : @request nat world_five url 0%nat = (inr r, 1%nat))
    by reflexivity.
  assert (H2 : text r ≠ "") by done.
  assert (H3 : entries (@feedparser_parse toy_libs (text r)) = [])
    by reflexivity.
  exact (conj H1 (conj H2 (conj H3
    (@try_feed_urls_snippet toy_libs nat world_five url [] 4 "ET"
       0%nat 1%nat r H1 H2 H3)))).
Defined.

Lemma main_raises_only_sort_error_witness :
  @writes_succeed nat world_five
  ∧ (value_of (@main toy_libs nat world_five "global_top" 0%nat) = inr tt
     ∨ (value_of (@main toy_libs nat world_five "global_top" 0%nat)
        = inl sort_error ∧ "global_top" ≠ "per_source")).
Proof.
  exact (conj world_five_writes
    (@main_raises_only_sort_error toy_libs nat world_five "global_top" 0%nat
       world_five_writes)).
Defined.

Lemma main_global_top_raises_witness :
  @batches aware_libs nat world_five MAX_PER_SOURCE_FOR_GLOBAL FEEDS 0%nat
    batches_mixed 5%nat
  ∧ mixed_dates (concat batches_mixed)
  ∧ value_of (@main aware_libs nat world_five "global_top" 0%nat)
    = inl sort_error
  ∧ writes_made (trace_of (@main aware_libs nat world_five "global_top" 0%nat))
    = [].
Proof.
  assert (Hb : @batches aware_libs nat world_five MAX_PER_SOURCE_FOR_GLOBAL
                 FEEDS 0%nat batches_mixed 5%nat).
  { eapply batches_cons; [vm_compute; reflexivity|].
    eapply batches_cons; [vm_compute; reflexivity|].
    apply batches_nil. }
  assert (Hm : mixed_dates (concat batches_mixed)).
  { eexists _, _, _, _. split_and!.
    - apply list_elem_of_here.
    - apply list_elem_of_further, list_elem_of_here.
    - reflexivity.
    - reflexivity.
    - reflexivity.
    - by eexists. }
  exact (conj Hb (conj Hm
    (proj2 (@main_global_top_raises aware_libs nat world_five 0%nat 5%nat
              batches_mixed Hb) Hm))).
Defined.

Lemma main_rows_modes_fetch_alike_witness :
  @batches toy_libs nat world_five MAX_PER_SOURCE_FOR_GLOBAL FEEDS 0%nat
    batches_five 5%nat
  ∧ value_of (@main_rows toy_libs nat world_five "per_source" 0%nat)
    = inr (dedupe (concat (map (take HEADLINES_PER_SOURCE) batches_five)))
  ∧ requests_made (trace_of (@main_rows toy_libs nat world_five "per_source" 0%nat))
    = requests_made (trace_of (@main_rows toy_libs nat world_five "global_top" 0%nat)).
Proof.
  exact (conj batches_five_run
    (@main_rows_modes_fetch_alike toy_libs nat world_five 0%nat 5%nat
       batches_five batches_five_run)).
Defined.

Lemma main_global_top_selects_newest_witness :
  @batches toy_libs nat world_five MAX_PER_SOURCE_FOR_GLOBAL FEEDS 0%nat
    batches_five 5%nat
  ∧ value_of (@main_rows toy_libs nat world_five "global_top" 0%nat)
    = inr rows_abc
  ∧ ∃ top rest,
      List.filter has_published_dt (concat batches_five) ≡ₚ top ++ rest
      ∧ length top = TOTAL_GLOBAL_TOP `min` length (top ++ rest)
      ∧ StronglySorted not_older top
      ∧ (∀ a b, a ∈ top → b ∈ rest → not_older a b)
      ∧ rows_abc = dedupe top.
Proof.
  assert (E : value_of (@main_rows toy_libs nat world_five "global_top" 0%nat)
              = inr rows_abc) by (vm_compute; reflexivity).
  exact (conj batches_five_run (conj E
    (@main_global_top_selects_newest toy_libs nat world_five 0%nat 5%nat
       batches_five rows_abc batches_five_run E))).
Defined.

Lemma main_saves_and_prints_witness :
  let run := @main_rows toy_libs nat world_five "per_source" 0%nat in
  run = (trace_of run, 5%nat, inr rows_abc)
  ∧ @writes_succeed nat world_five
  ∧ ∃ df w2 blocks,
      @main toy_libs nat world_five "per_source" 0%nat =
        (trace_of run
         ++ [EvWrite CSV_OUT df; EvWrite XLSX_OUT df;
             EvPrint (saved_line (length rows_abc));
             EvPrint top2_header] ++ blocks,
         w2, inr tt)
      ∧ map df_title (body df) = map title rows_abc
      ∧ map df_link (body df) = map link rows_abc
      ∧ length blocks = 2 `min` length rows_abc
      ∧ Forall is_print blocks.
Proof.
  intros run.
  assert (E : run = (trace_of run, 5%nat, inr rows_abc))
    by (vm_compute; reflexivity).
  exact (conj E (conj world_five_writes
    (@main_saves_and_prints toy_libs nat world_five "per_source" 0%nat 5%nat
       (trace_of run) _ _ E world_five_writes))).
Defined.

Lemma key_lt_true_instant (a b : Row) :
  PyDate.key_lt (published_dt a) (published_dt b) = Some true →
  ∀ z, at_instant z a = true → at_instant z b = false.
Proof.
  unfold PyDate.key_lt, PyDate.lt, at_instant, PyDate.instant.
  destruct (published_dt a) as [[wa [oa|]]|], (published_dt b) as [[wb [ob|]]|];
    simpl; try done; intros [= E] z Hz; lia.
Qed.

Lemma insert_desc_stable (x : Row) (l l' : list Row) (z : Z) :
  insert_desc x l = Some l' →
  List.filter (at_instant z) l' = List.filter (at_instant z) (x :: l).
Proof.
  revert l'. induction l as [|y l IH]; intros l'; simpl.
  - by intros [= <-].
  - destruct (PyDate.key_lt (published_dt x) (published_dt y))
      as [[|]|] eqn:E; [|by intros [= <-]|done].
    destruct (insert_desc x l) as [s|]; [|done]. intros [= <-].
    simpl. rewrite (IH s eq_refl). simpl.
    destruct (at_instant z x) eqn:Ex; [|done].
    by rewrite (key_lt_true_instant _ _ E z Ex).
Qed.

Lemma sort_desc_stable (l s : list Row) (z : Z) :
  sort_desc l = Some s →
  List.filter (at_instant z) s = List.filter (at_instant z) l.
Proof.
  revert s. induction l as [|x l IH]; intros s; simpl.
  - by intros [= <-].
  - destruct (sort_desc l) as [s'|]; [|done]. intros Hi.
    rewrite (insert_desc_stable _ _ _ z Hi). simpl. by rewrite (IH s' eq_refl).
Qed.

(** X18. The sort of global-top mode is stable: the sorted rows are the
    dated rows fetched, newest first, and rows dated at the same instant
    keep the order in which they were fetched. *)
Theorem main_global_top_stable `{Libs} `{World W} (w w' : W)
    (bs : list (list Row)) (out : list Row) :
  batches MAX_PER_SOURCE_FOR_GLOBAL FEEDS w bs w' →
  value_of (main_rows "global_top" w) = inr out →
  ∃ sorted,
    out = dedupe (take TOTAL_GLOBAL_TOP sorted)
    ∧ sorted ≡ₚ List.filter has_published_dt (concat bs)
    ∧ StronglySorted not_older sorted
    ∧ ∀ z, List.filter (at_instant z) sorted
           = List.filter (at_instant z) (concat bs).
Proof.
  intros Hb.
  destruct (main_rows_run "global_top" w) as (t & w1 & bs1 & Hb1 & E & F).
  change (cap_of "global_top") with MAX_PER_SOURCE_FOR_GLOBAL in Hb1.
  destruct (batches_functional _ _ _ _ _ _ _ Hb Hb1) as [<- <-].
  rewrite E. unfold value_of, rows_of, dedupe_after_select, global_top. simpl.
  destruct (sort_desc (List.filter has_published_dt (concat bs)))
    as [s|] eqn:Es; [|done].
  intros [= <-]. exists s. split_and!; [done| | |].
  - by apply sort_desc_perm.
  - by eapply sort_desc_sorted.
  - intros z. rewrite (sort_desc_stable _ _ z Es).
    clear. induction (concat bs) as [|r l IH]; [done|]. simpl.
    unfold has_published_dt at 1, at_instant at 2.
    destruct (published_dt r) as [x|] eqn:Ex; simpl.
    + unfold at_instant at 1. rewrite Ex.
      destruct (PyDate.instant x =? z)%Z; by rewrite IH.
    + exact IH.
Qed.

Lemma main_global_top_stable_witness :
  @batches toy_libs nat world_five MAX_PER_SOURCE_FOR_GLOBAL FEEDS 0%nat
    batches_five 5%nat
  ∧ value_of (@main_rows toy_libs nat world_five "global_top" 0%nat)
    = inr rows_abc
  ∧ ∃ sorted,
      rows_abc = dedupe (take TOTAL_GLOBAL_TOP sorted)
      ∧ sorted ≡ₚ List.filter has_published_dt (concat batches_five)
      ∧ StronglySorted not_older sorted
      ∧ ∀ z, List.filter (at_instant z) sorted
             = List.filter (at_instant z) (concat batches_five).
Proof.
  assert (E : value_of (@main_rows toy_libs nat world_five "global_top" 0%nat)
              = inr rows_abc) by (vm_compute; reflexivity).
  exact (conj batches_five_run (conj E
    (@main_global_top_stable toy_libs nat world_five 0%nat 5%nat
       batches_five rows_abc batches_five_run E))).
Defined.

Lemma global_top_sublist_perm (rows top : list Row) :
  global_top rows = inr top →
  ∃ s, top `sublist_of` s ∧ s ≡ₚ List.filter has_published_dt rows.
Proof.
  unfold global_top.
  destruct (sort_desc (List.filter has_published_dt rows)) as [s|] eqn:Es;
    [|done].
  intros [= <-]. exists s. split; [apply sublist_take|by apply sort_desc_perm].
Qed.

Lemma List_filter_sublist {A} (f : A → bool) (l : list A) :
  List.filter f l `sublist_of` l.
Proof.
  induction l as [|x l IH]; [done|]. simpl.
  destruct (f x); [by apply sublist_skip|by apply sublist_cons].
Qed.

(** X19. When [dedupe] has nothing to drop from the rows fetched, the
    order of [main] (select the newest, then [dedupe]) and the opposite
    order ([dedupe], then select) give the same result. *)
Theorem dedupe_and_select_commute (rows : list Row) :
  dedupe rows = rows → dedupe_after_select rows = select_after_dedupe rows.
Proof.
  intros Hfix. unfold dedupe_after_select, select_after_dedupe.
  rewrite Hfix. destruct (global_top rows) as [e|top] eqn:Eg; [done|].
  f_equal.
  destruct (global_top_sublist_perm _ _ Eg) as (s & Hsub & Hperm).
  rewrite dedupe_kept in Hfix. destruct (kept_keys rows ∅) as [Hnd Hall].
  rewrite Hfix in Hnd, Hall. rewrite dedupe_kept. apply kept_all.
  - assert (H1 : map dedupe_key top `sublist_of` map dedupe_key s)
      by (by apply fmap_sublist).
    assert (H2 : map dedupe_key (List.filter has_published_dt rows)
                 `sublist_of` map dedupe_key rows)
      by (apply fmap_sublist, List_filter_sublist).
    eapply sublist_NoDup in H2; [|done]. rewrite <- Hperm in H2.
    by eapply sublist_NoDup in H1.
  - eapply Forall_sublist_of; [exact Hsub|]. rewrite Hperm.
    eapply Forall_sublist_of; [apply List_filter_sublist|done].
Qed.

Lemma dedupe_and_select_commute_witness :
  dedupe rows_abc = rows_abc
  ∧ dedupe_after_select rows_abc = select_after_dedupe rows_abc.
Proof.
  assert (E : dedupe rows_abc = rows_abc) by (vm_compute; reflexivity).
  exact (conj E (dedupe_and_select_commute rows_abc E)).
Defined.

Lemma construct_naive (args : list Z) (d : datetime) :
  PyDate.construct args = Some d → dt_utcoffset d = None.
Proof.
  unfold PyDate.construct, PyDate.of_fields.
  repeat (destruct args as [|? args]; try done);
    destruct (_ && _); try done; by intros [= <-].
Qed.

Lemma normalize_entry_naive `{Libs} (name : string) (e : Entry) (d : datetime) :
  (∀ s x, dateutil_parse s = Some x → dt_utcoffset x = None) →
  published_dt (normalize_entry name e) = Some d → dt_utcoffset d = None.
Proof.
  intros Hn. simpl. destruct (e_published_parsed e) as [[|x t]|].
  - destruct (PyStr.truthy _); [apply Hn|done].
  - apply construct_naive.
  - destruct (PyStr.truthy _); [apply Hn|done].
Qed.

Lemma try_feed_urls_rows_normal `{Libs} `{World W}
    (url_list : list string) (max_items : nat) (debug_name : string) (w : W) :
  ∃ rows,
    value_of (try_feed_urls url_list max_items debug_name w) = inr rows
    ∧ Forall (λ r, ∃ e, r = normalize_entry debug_name e) rows.
Proof.
  revert w. induction url_list as [|url rest IH]; intros w.
  - by exists [].
  - rewrite try_feed_urls_cons. destruct (yield (request url w).1) as [|e es].
    + apply IH.
    + eexists. split; [reflexivity|]. apply Forall_forall. intros r Hr.
      apply list_elem_of_fmap in Hr as (e' & -> & _). by exists e'.
Qed.

Lemma batches_rows_normal `{Libs} `{World W} (n : nat)
    (feeds : list (string * list string)) (w w' : W) (bs : list (list Row)) :
  batches n feeds w bs w' →
  Forall (λ r, ∃ name e, r = normalize_entry name e) (concat bs).
Proof.
  induction 1 as [w|name urls feeds w wa wb t rows bs E Hb IH];
    simpl; [constructor|].
  apply Forall_app. split; [|done].
  destruct (try_feed_urls_rows_normal urls n name w) as (rows' & E' & Hall).
  rewrite E in E'. injection E' as <-.
  eapply Forall_impl; [exact Hall|]. intros r [e ->]. by exists name, e.
Qed.

(** X20. If the textual date parser never returns an aware datetime and
    the writes succeed, a run of [main] returns in either mode: dates built
    from the parser's date tuples are naive, so the sort compares like with
    like. *)
Theorem main_never_raises_with_naive_dates `{Libs} `{World W}
    (mode : string) (w : W) :
  (∀ s x, dateutil_parse s = Some x → dt_utcoffset x = None) →
  writes_succeed →
  value_of (main mode w) = inr tt.
Proof.
  intros Hn Hok. pose proof (main_cases mode w) as Hc.
  destruct (main_rows_run mode w) as (t & w' & bs & Hb & E & _).
  assert (Hrows : ∃ rows, rows_of mode (concat bs) = inr rows).
  { unfold rows_of, dedupe_after_select.
    destruct (String.eqb mode "per_source"); [by eexists|].
    destruct (global_top (concat bs)) as [e|rows] eqn:Eg; [|by eexists].
    exfalso. assert (e = sort_error) as ->.
    { unfold global_top in Eg. destruct (sort_desc _); congruence. }
    apply global_top_raises_iff in Eg
      as (a & b & x & y & Ha & Hb' & Ex & Ey & Hx & [o Hy]).
    pose proof (batches_rows_normal _ _ _ _ _ Hb) as Hall.
    rewrite Forall_forall in Hall. destruct (Hall b Hb') as (name & e & ->).
    by rewrite (normalize_entry_naive _ _ _ Hn Ey) in Hy. }
  destruct Hrows as [[|r rows] Er]; rewrite Er in E; rewrite E in Hc.
  - by rewrite Hc.
  - destruct (main_success mode w w' t r rows E Hok)
      as (df & w2 & blocks & -> & _). done.
Qed.

Lemma toy_libs_naive :
  ∀ s x, @dateutil_parse toy_libs s = Some x → dt_utcoffset x = None.
Proof. intros s x. simpl. done. Qed.

Lemma main_never_raises_with_naive_dates_witness :
  (∀ s x, @dateutil_parse toy_libs s = Some x → dt_utcoffset x = None)
  ∧ @writes_succeed nat world_five
  ∧ value_of (@main toy_libs nat world_five "global_top" 0%nat) = inr tt.
Proof.
  exact (conj toy_libs_naive (conj world_five_writes
    (@main_never_raises_with_naive_dates toy_libs nat world_five
       "global_top" 0%nat toy_libs_naive world_five_writes))).
Defined.
